(** * AI Smart LED Controller: training pipeline and prediction service

    A shallow embedding of [python/train_model.py] (the offline
    load / clean / validate / outlier / split / fit / evaluate / save
    script), of [python/app.py] (the Flask prediction service) and of
    [python/export_thingsboard.py] (the telemetry exporter), with the
    properties their specification states about them and further ones
    read off the code.

    Numbers.  Every number the two programs compare is a Python [float]
    (numpy [float64]) or a Python [int].  A finite binary64 value is a
    rational, and comparisons, [int()], [min], [max] and [np.clip] are
    exact on them, so a float is modelled as [NaN], an infinity or a
    rational [Fin q].  The arithmetic of the outlier stage (the
    interpolation of the quartiles, the IQR and the two bounds) is the
    binary64 one: the exact operation followed by rounding to the nearest
    double, ties to even, overflow to infinity (module [F64]).  The tenth
    of the row count of line 108 is compared exactly; module [Binary64]
    checks that comparison against the rounded one.

    Library calls.  pandas' CSV reader, scikit-learn's split, fit, predict
    and metrics, and joblib are outside the repository; they are the
    fields of the classes [Externals] and [ExporterLibs] below.  In the
    training script they are taken to return; where the code wraps a call
    in [try], the call may raise. *)

From Stdlib Require Import ZArith QArith Qround Qpower Qabs.
From Stdlib Require Import String List Bool Lia Lqa.
From Stdlib Require Import Sorted Permutation.
From Stdlib Require PrimFloat Uint63 FloatOps SpecFloat.
Import ListNotations.

Local Open Scope Z_scope.

(* ===================================================================== *)
(** ** Python floats *)
(* ===================================================================== *)

Module PyFloat.

Inductive pyfloat : Type :=
| NaN
| NegInf
| Fin (q : Q)
| PosInf.

Definition Qlt_bool (x y : Q) : bool := negb (Qle_bool y x).

(** [x <= y], [x < y], [x == y] of IEEE 754: false as soon as one side
    is [NaN]. *)
Definition fle (x y : pyfloat) : bool :=
  match x, y with
  | NaN, _ | _, NaN => false
  | NegInf, _ => true
  | _, PosInf => true
  | Fin a, Fin b => Qle_bool a b
  | _, _ => false
  end.

Definition flt (x y : pyfloat) : bool :=
  match x, y with
  | NaN, _ | _, NaN => false
  | NegInf, NegInf => false
  | PosInf, PosInf => false
  | NegInf, _ => true
  | _, PosInf => true
  | Fin a, Fin b => Qlt_bool a b
  | _, _ => false
  end.

Definition feqb (x y : pyfloat) : bool :=
  match x, y with
  | NegInf, NegInf => true
  | PosInf, PosInf => true
  | Fin a, Fin b => Qeq_bool a b
  | _, _ => false
  end.

Definition is_nan (x : pyfloat) : bool :=
  match x with NaN => true | _ => false end.

Definition is_finite (x : pyfloat) : bool :=
  match x with Fin _ => true | _ => false end.

Definition of_Z (n : Z) : pyfloat := Fin (inject_Z n).

Definition fopp (x : pyfloat) : pyfloat :=
  match x with
  | NaN => NaN
  | NegInf => PosInf
  | PosInf => NegInf
  | Fin a => Fin (- a)
  end.

Definition fadd (x y : pyfloat) : pyfloat :=
  match x, y with
  | NaN, _ | _, NaN => NaN
  | PosInf, NegInf | NegInf, PosInf => NaN
  | PosInf, _ | _, PosInf => PosInf
  | NegInf, _ | _, NegInf => NegInf
  | Fin a, Fin b => Fin (a + b)
  end.

Definition fsub (x y : pyfloat) : pyfloat := fadd x (fopp y).

(** Sign of a rational: [-1], [0] or [1]. *)
Definition Qsgn (a : Q) : Z := Z.sgn (Qnum a).

Definition inf_of_sign (s : Z) : pyfloat :=
  if s =? 0 then NaN else if s <? 0 then NegInf else PosInf.

Definition fsgn (x : pyfloat) : Z :=
  match x with
  | NaN => 0
  | NegInf => -1
  | PosInf => 1
  | Fin a => Qsgn a
  end.

Definition fmul (x y : pyfloat) : pyfloat :=
  match x, y with
  | NaN, _ | _, NaN => NaN
  | Fin a, Fin b => Fin (a * b)
  | _, _ => inf_of_sign (fsgn x * fsgn y)
  end.

(** [np.maximum] and [np.minimum]: a [NaN] operand gives [NaN]. *)
Definition fmax (x y : pyfloat) : pyfloat :=
  if is_nan x || is_nan y then NaN else if flt x y then y else x.

Definition fmin (x y : pyfloat) : pyfloat :=
  if is_nan x || is_nan y then NaN else if flt y x then y else x.

(** Truncation toward zero of a rational. *)
Definition Qtrunc (a : Q) : Z := Z.quot (Qnum a) (Zpos (Qden a)).

End PyFloat.
Export PyFloat.

(* ===================================================================== *)
(** ** Binary64 arithmetic *)
(* ===================================================================== *)

(** [+], [-] and [*] on doubles: the exact result, rounded to the nearest
    double, ties to the even mantissa; a result of magnitude [2^1024] or
    more after rounding is an infinity.  The sign of a zero is not
    kept: no comparison sees it. *)
Module F64.

Definition pow2 (e : Z) : Q := Qpower 2 e.

(** The integer [k] with [2^k <= q < 2^(k+1)], for [q > 0]. *)
Definition ilog2 (q : Q) : Z :=
  let k := Z.log2 (Qnum q) - Z.log2 (Zpos (Qden q)) in
  if Qle_bool (pow2 k) q then k else k - 1.

Definition round_half_even (x : Q) : Z :=
  let f := Qfloor x in
  match Qcompare (x - inject_Z f) (1 # 2) with
  | Lt => f
  | Gt => f + 1
  | Eq => if Z.even f then f else f + 1
  end.

(** The double nearest to [q > 0], were the exponent unbounded above:
    53 bits of mantissa, spacing [2^-1074] below [2^-1022]. *)
Definition nearest_pos (q : Q) : Q :=
  let e := Z.max (ilog2 q) (-1022) in
  let ulp := pow2 (e - 52) in
  Qred (inject_Z (round_half_even (q / ulp)) * ulp).

Definition round64_red (q : Q) : pyfloat :=
  match Qcompare q 0 with
  | Eq => Fin 0
  | Gt => let r := nearest_pos q in
          if Qle_bool (pow2 1024) r then PosInf else Fin r
  | Lt => let r := nearest_pos (- q) in
          if Qle_bool (pow2 1024) r then NegInf else Fin (- r)
  end.

Definition round64 (q : Q) : pyfloat := round64_red (Qred q).

Definition rnd (x : pyfloat) : pyfloat :=
  match x with
  | Fin q => round64 q
  | _ => x
  end.

Definition f64_add (x y : pyfloat) : pyfloat := rnd (fadd x y).
Definition f64_sub (x y : pyfloat) : pyfloat := rnd (fsub x y).
Definition f64_mul (x y : pyfloat) : pyfloat := rnd (fmul x y).

(** The value of a primitive double of the prover, for comparing
    [round64] with the machine's arithmetic. *)
Definition of_spec (x : SpecFloat.spec_float) : pyfloat :=
  match x with
  | SpecFloat.S754_zero _ => Fin 0
  | SpecFloat.S754_infinity s => if s then NegInf else PosInf
  | SpecFloat.S754_nan => NaN
  | SpecFloat.S754_finite s m e =>
      Fin (Qred ((if s then - (1) else 1) * inject_Z (Zpos m) * pow2 e))
  end.

Definition of_prim (f : PrimFloat.float) : pyfloat :=
  of_spec (FloatOps.Prim2SF f).

End F64.
Export F64.

(* ===================================================================== *)
(** ** Exceptions and clamping *)
(* ===================================================================== *)

(** The exception classes the two programs can meet.  [LibError] stands
    for whatever a library call raises, with its message. *)
Inductive pyexn : Type :=
| TypeError
| ValueError
| OverflowError
| AttributeError
| BadRequest
| LibError (msg : string).

(** Python's [int(x)] on a float: truncation toward zero; [ValueError] on
    [NaN], [OverflowError] on an infinity. *)
Definition py_int (x : pyfloat) : pyexn + Z :=
  match x with
  | NaN => inl ValueError
  | NegInf | PosInf => inl OverflowError
  | Fin a => inr (Qtrunc a)
  end.

(** Python's two-argument [min] and [max] on integers: the first argument
    is kept unless the second is strictly better. *)
Definition py_min (a b : Z) : Z := if b <? a then b else a.
Definition py_max (a b : Z) : Z := if a <? b then b else a.

(** app.py line 69, the clamp alone: [max(0, min(255, n))]. *)
Definition clamp255 (n : Z) : Z := py_max 0 (py_min 255 n).

(** app.py line 69 as a whole: [max(0, min(255, int(pred)))]. *)
Definition led_of_pred (pred : pyfloat) : pyexn + Z :=
  match py_int pred with
  | inl e => inl e
  | inr n => inr (clamp255 n)
  end.

(** train_model.py lines 148, 149 and 184: [np.clip(x, 0, 255)], which is
    [np.minimum(np.maximum(x, 0), 255)]. *)
Definition np_clip (x : pyfloat) : pyfloat :=
  fmin (fmax x (of_Z 0)) (of_Z 255).

(** What [in \[0, 255\]] means for a float. *)
Definition in_0_255 (x : pyfloat) : bool :=
  fle (of_Z 0) x && fle x (of_Z 255).

(* ===================================================================== *)
(** ** Data frames *)
(* ===================================================================== *)

(** A cell as [pd.read_csv] delivers it: a number (a missing value is the
    number [NaN]) or, in a column pandas could not parse, a string. *)
Inductive cell : Type :=
| CNum (x : pyfloat)
| CStr (s : string).

(** A frame as read from the file: named columns, in file order.  pandas
    makes the names distinct and the columns equally long. *)
Definition Frame : Type := list (string * list cell).

(** A row of the three-column frame of line 53 on. *)
Record Row (A : Type) : Type := mkRow { ldr : A; motion : A; led : A }.
Arguments mkRow {A} _ _ _.
Arguments ldr {A} _.
Arguments motion {A} _.
Arguments led {A} _.

Definition NRow : Type := Row pyfloat.

Definition has_col (name : string) (df : Frame) : bool :=
  existsb (fun c => String.eqb name (fst c)) df.

Definition drop_columns (names : list string) (df : Frame) : Frame :=
  filter (fun c => negb (existsb (String.eqb (fst c)) names)) df.

Definition get_col (name : string) (df : Frame) : list cell :=
  match find (fun c => String.eqb name (fst c)) df with
  | Some c => snd c
  | None => []
  end.

Definition frame_len (df : Frame) : nat :=
  match df with
  | [] => 0%nat
  | c :: _ => length (snd c)
  end.

Fixpoint zip3 {A : Type} (xs ys zs : list A) : list (Row A) :=
  match xs, ys, zs with
  | x :: xs', y :: ys', z :: zs' => mkRow x y z :: zip3 xs' ys' zs'
  | _, _, _ => []
  end.

Definition required_cols : list string :=
  ["ldr"; "motion"; "led"]%string.

(** Line 47: the required columns the frame lacks. *)
Definition missing_cols (df : Frame) : list string :=
  filter (fun c => negb (has_col c df)) required_cols.

(** Line 53: [df\[required_cols\].copy()], row by row. *)
Definition select_required (df : Frame) : list (Row cell) :=
  zip3 (get_col "ldr" df) (get_col "motion" df) (get_col "led" df).

Definition isnull (c : cell) : bool :=
  match c with
  | CNum x => is_nan x
  | CStr _ => false
  end.

Definition row_cells {A : Type} (r : Row A) : list A :=
  [ldr r; motion r; led r].

(** Line 57: [df.isnull().sum().sum()]. *)
Definition count_missing (df : list (Row cell)) : nat :=
  list_sum (map (fun r => length (filter isnull (row_cells r))) df).

(** Line 61: [df.dropna()] on the frame as read. *)
Definition dropna_raw (df : list (Row cell)) : list (Row cell) :=
  filter (fun r => negb (existsb isnull (row_cells r))) df.

(** Line 69: [df.dropna()] on the numeric frame. *)
Definition dropna (df : list NRow) : list NRow :=
  filter (fun r => negb (existsb is_nan (row_cells r))) df.

Definition row_eqb (r s : NRow) : bool :=
  feqb (ldr r) (ldr s) && feqb (motion r) (motion s) && feqb (led r) (led s).

(** Line 74: [df.drop_duplicates()], which keeps the first of equal
    rows.  [seen] holds the rows already kept. *)
Fixpoint drop_duplicates_from (seen : list NRow) (df : list NRow)
  : list NRow :=
  match df with
  | [] => []
  | r :: rest =>
      if existsb (row_eqb r) seen then drop_duplicates_from seen rest
      else r :: drop_duplicates_from (r :: seen) rest
  end.

Definition drop_duplicates (df : list NRow) : list NRow :=
  drop_duplicates_from [] df.

(** Line 72: [df.duplicated().sum()]. *)
Definition count_duplicates (df : list NRow) : nat :=
  (length df - length (drop_duplicates df))%nat.

(* ===================================================================== *)
(** ** Validation (lines 87 to 89) *)
(* ===================================================================== *)

Definition ldr_ok (r : NRow) : bool :=
  fle (of_Z 0) (ldr r) && fle (ldr r) (of_Z 4095).

(** [df\['motion'\].isin(\[0, 1\])]. *)
Definition motion_ok (r : NRow) : bool :=
  existsb (feqb (motion r)) [of_Z 0; of_Z 1].

Definition led_ok (r : NRow) : bool :=
  fle (of_Z 0) (led r) && fle (led r) (of_Z 255).

Definition validate (df : list NRow) : list NRow :=
  let df := filter ldr_ok df in
  let df := filter motion_ok df in
  filter led_ok df.

(* ===================================================================== *)
(** ** Outlier detection (lines 103 to 112) *)
(* ===================================================================== *)

Fixpoint insert_sorted (x : pyfloat) (l : list pyfloat) : list pyfloat :=
  match l with
  | [] => [x]
  | y :: rest => if fle x y then x :: l else y :: insert_sorted x rest
  end.

Definition sort_values (l : list pyfloat) : list pyfloat :=
  fold_right insert_sorted [] l.

(** numpy's [_lerp] (numpy 1.22 and later), the interpolation of
    [np.percentile] between two neighbours: [a + (b - a) * t], replaced
    by [b - (b - a) * (1 - t)] where [t >= 0.5]. *)
Definition lerp (a b t : pyfloat) : pyfloat :=
  let diff_b_a := f64_sub b a in
  if fle (Fin (1 # 2)) t
  then f64_sub b (f64_mul diff_b_a (f64_sub (of_Z 1) t))
  else f64_add a (f64_mul diff_b_a t).

(** [Series.quantile(q)] with pandas' default linear interpolation,
    which pandas hands to [np.percentile]: the virtual index is
    [(n - 1) * q]; the neighbours are the entries of the sorted column at
    its floor and one further, the weight is its fractional part; at or
    beyond the last position both neighbours are the last entry (numpy
    indexes it by -1, so the weight is the virtual index plus one).  For
    the two levels the script uses, 0.25 and 0.75, the virtual index and
    the weight are exact in binary64, so they are kept as rationals. *)
Definition quantile (q : Q) (col : list pyfloat) : pyfloat :=
  match col with
  | [] => NaN
  | _ =>
      let s := sort_values col in
      let last := Z.of_nat (length col) - 1 in
      let h := (inject_Z last * q)%Q in
      if Qle_bool (inject_Z last) h then
        lerp (nth (Z.to_nat last) s NaN) (nth (Z.to_nat last) s NaN)
             (Fin (h + 1))
      else
        let lo := Qfloor h in
        lerp (nth (Z.to_nat lo) s NaN) (nth (Z.to_nat (lo + 1)) s NaN)
             (Fin (h - inject_Z lo))
  end.

Definition of_nat (n : nat) : pyfloat := of_Z (Z.of_nat n).

Record Bounds : Type := mkBounds { low : pyfloat; high : pyfloat }.

(** Lines 103 to 105. *)
Definition iqr_bounds (df : list NRow) : Bounds :=
  let Q1 := quantile (1 # 4) (map led df) in
  let Q3 := quantile (3 # 4) (map led df) in
  let IQR := f64_sub Q3 Q1 in
  mkBounds (f64_sub Q1 (f64_mul (Fin (3 # 2)) IQR))
           (f64_add Q3 (f64_mul (Fin (3 # 2)) IQR)).

(** The mask of line 107. *)
Definition is_outlier (b : Bounds) (r : NRow) : bool :=
  flt (led r) (low b) || flt (high b) (led r).

(** The mask of line 109. *)
Definition within (b : Bounds) (r : NRow) : bool :=
  fle (low b) (led r) && fle (led r) (high b).

Definition outliers (df : list NRow) : list NRow :=
  filter (is_outlier (iqr_bounds df)) df.

(** The condition of line 108; the right-hand side is a float product. *)
Definition outlier_guard (df : list NRow) : bool :=
  (0 <? length (outliers df))%nat
  && flt (of_nat (length (outliers df)))
         (fmul (of_nat (length df)) (Fin (1 # 10))).

Definition remove_outliers (df : list NRow) : list NRow :=
  if outlier_guard df then filter (within (iqr_bounds df)) df else df.

(* ===================================================================== *)
(** ** Library calls, files and the script monad *)
(* ===================================================================== *)

(** What pandas, scikit-learn and Python's own [float] do, as far as the
    two programs use them. *)
Class Externals : Type := {
  (** the fitted regressor, and any object [joblib.load] returns *)
  Model : Type;
  (** [pd.to_numeric(..., errors='coerce')] on one string cell: [NaN]
      when the string is no number *)
  str_to_numeric : string -> pyfloat;
  (** [train_test_split(X, y, test_size=0.2, random_state=42)] *)
  train_test_split : list NRow -> list NRow * list NRow;
  (** [RandomForestRegressor(...).fit(X_train, y_train)] *)
  fit : list NRow -> Model;
  (** [model.predict] on one (ldr, motion) row of a numeric frame, in the
      training script *)
  forest_predict : Model -> pyfloat -> pyfloat -> pyfloat;
  (** [float(s)] on a string: [None] is [ValueError] *)
  float_of_str : string -> option pyfloat;
  (** [model.predict(df)\[0\]] in the service, on whatever object was
      loaded: the call may raise *)
  call_predict : Model -> pyfloat -> pyfloat -> pyexn + pyfloat
}.

(** The numbers the evaluation stage reports. *)
Record Metrics `{Externals} : Type := {
  mean_absolute_error : list pyfloat -> list pyfloat -> pyfloat;
  r2_score : list pyfloat -> list pyfloat -> pyfloat;
  feature_importances : Model -> pyfloat * pyfloat
}.

Inductive File `{Externals} : Type :=
| Csv (df : Frame)
| Pickle (m : Model)
| Garbage.

Definition FileSystem `{Externals} : Type := string -> option File.

Definition write_file `{Externals} (path : string) (f : File)
  (fs : FileSystem) : FileSystem :=
  fun p => if String.eqb p path then Some f else fs p.

Definition CSV_PATH : string := "../data/thingsboard_history.csv".
Definition MODEL_PATH : string := "led_predictor.pkl".

(** The lines the script prints that tell its stages apart (banners and
    the purely descriptive tables of lines 30 to 33, 82 to 84 and 118 to
    122 are left out). *)
Inductive Msg : Type :=
| MsgLoaded (n : nat)
| MsgCsvNotFound
| MsgRunExportFirst
| MsgCsvError
| MsgRemovedTimestamp
| MsgMissingColumns (cols : list string)
| MsgFoundMissing (n : nat)
| MsgDroppedMissing (n : nat)
| MsgRemovedDuplicates (n : nat)
| MsgOnlyValid (n : nat)
| MsgCollectMore
| MsgCleanDataset (n : nat)
| MsgRemovedOutliers (n : nat)
| MsgNoOutliers
| MsgSplit (ntrain ntest : nat)
| MsgTrainingComplete
| MsgTrainMetrics (mae r2 : pyfloat)
| MsgTestMetrics (mae r2 : pyfloat)
| MsgImportance (ldr_imp motion_imp : pyfloat)
| MsgModelSaved
| MsgSaveError
| MsgSample (desc : string) (pwm : Z)
| MsgReady.

Section Script.
Context `{E : Externals}.

Record World : Type := mkWorld {
  fs : FileSystem;
  (** whether a write to [MODEL_PATH] succeeds; when it does not, the
      write is refused before anything is written (a write that fails
      half-way and leaves a partial file is not modelled) *)
  writable : bool;
  stdout : list Msg
}.

(** How a statement ends: normally, by [sys.exit(code)], or by an
    exception nobody catches. *)
Inductive Res (A : Type) : Type :=
| Ok (a : A)
| Exit (code : Z)
| Uncaught (e : pyexn).
Arguments Ok {A} _.
Arguments Exit {A} _.
Arguments Uncaught {A} _.

Definition Script (A : Type) : Type := World -> Res A * World.

Definition ret {A : Type} (a : A) : Script A := fun w => (Ok a, w).

Definition bind {A B : Type} (m : Script A) (k : A -> Script B)
  : Script B :=
  fun w =>
    match m w with
    | (Ok a, w') => k a w'
    | (Exit c, w') => (Exit c, w')
    | (Uncaught e, w') => (Uncaught e, w')
    end.

Definition print (m : Msg) : Script unit :=
  fun w => (Ok tt, mkWorld (fs w) (writable w) (stdout w ++ [m])).

Definition sys_exit {A : Type} (code : Z) : Script A :=
  fun w => (Exit code, w).

Definition raise {A : Type} (e : pyexn) : Script A :=
  fun w => (Uncaught e, w).

Definition when (b : bool) (m : Script unit) : Script unit :=
  if b then m else ret tt.

End Script.

Arguments Ok {A} _.
Arguments Exit {A} _.
Arguments Uncaught {A} _.

Declare Scope script_scope.
Delimit Scope script_scope with script.
Notation "x <- m ;; k" := (bind m (fun x => k))
  (at level 61, m at next level, right associativity) : script_scope.
Notation "m ;; k" := (bind m (fun _ => k))
  (at level 61, right associativity) : script_scope.

(* ===================================================================== *)
(** ** The training script, stage by stage *)
(* ===================================================================== *)

Section Training.
Context `{E : Externals}.
Variable M : Metrics.
Local Open Scope script_scope.

(** Lines 18 to 27. *)
Definition load_data : Script Frame :=
  fun w =>
    match fs w CSV_PATH with
    | Some (Csv df) => (print (MsgLoaded (frame_len df)) ;; ret df) w
    | None =>
        (print MsgCsvNotFound ;; print MsgRunExportFirst ;; sys_exit 1) w
    | Some _ => (print MsgCsvError ;; sys_exit 1) w
    end.

(** Lines 41 to 43. *)
Definition drop_timestamp (df : Frame) : Script Frame :=
  if has_col "ts" df || has_col "Unnamed: 0" df then
    let df' :=
      drop_columns
        (filter (fun c => has_col c df) ["ts"; "Unnamed: 0"]%string) df in
    print MsgRemovedTimestamp ;; ret df'
  else ret df.

(** Lines 46 to 50. *)
Definition schema_guard (df : Frame) : Script unit :=
  match missing_cols df with
  | [] => ret tt
  | cols => print (MsgMissingColumns cols) ;; sys_exit 1
  end.

(** Lines 56 to 63. *)
Definition drop_missing (df : list (Row cell)) : Script (list (Row cell)) :=
  let initial_rows := length df in
  let missing_before := count_missing df in
  if (0 <? missing_before)%nat then
    print (MsgFoundMissing missing_before) ;;
    let df' := dropna_raw df in
    print (MsgDroppedMissing (initial_rows - length df')) ;;
    ret df'
  else ret df.

(** Lines 66 and 67. *)
Definition to_numeric_cell (c : cell) : pyfloat :=
  match c with
  | CNum x => x
  | CStr s => str_to_numeric s
  end.

Definition to_numeric (df : list (Row cell)) : list NRow :=
  map (fun r => mkRow (to_numeric_cell (ldr r))
                      (to_numeric_cell (motion r))
                      (to_numeric_cell (led r))) df.

(** Lines 72 to 75. *)
Definition remove_duplicates (df : list NRow) : Script (list NRow) :=
  let duplicates := count_duplicates df in
  if (0 <? duplicates)%nat then
    print (MsgRemovedDuplicates duplicates) ;; ret (drop_duplicates df)
  else ret df.

(** Lines 91 to 96. *)
Definition check_enough (df : list NRow) : Script unit :=
  if (length df <? 50)%nat then
    print (MsgOnlyValid (length df)) ;; print MsgCollectMore ;; sys_exit 1
  else print (MsgCleanDataset (length df)).

(** Lines 103 to 112. *)
Definition outlier_stage (df : list NRow) : Script (list NRow) :=
  if outlier_guard df then
    print (MsgRemovedOutliers (length (outliers df))) ;;
    ret (filter (within (iqr_bounds df)) df)
  else print MsgNoOutliers ;; ret df.

Definition predict_all (model : Model) (X : list NRow) : list pyfloat :=
  map (fun r => forest_predict model (ldr r) (motion r)) X.

(** Lines 148 to 161. *)
Definition evaluate (model : Model) (train test : list NRow)
  : Script unit :=
  let y_pred_train := map np_clip (predict_all model train) in
  let y_pred_test := map np_clip (predict_all model test) in
  let train_mae := mean_absolute_error M (map led train) y_pred_train in
  let test_mae := mean_absolute_error M (map led test) y_pred_test in
  let train_r2 := r2_score M (map led train) y_pred_train in
  let test_r2 := r2_score M (map led test) y_pred_test in
  print (MsgTrainMetrics train_mae train_r2) ;;
  print (MsgTestMetrics test_mae test_r2) ;;
  print (MsgImportance (fst (feature_importances M model))
                       (snd (feature_importances M model))).

(** Lines 164 to 171: [joblib.dump] inside [try]. *)
Definition save_model (model : Model) : Script unit :=
  fun w =>
    if writable w then
      print MsgModelSaved
        (mkWorld (write_file MODEL_PATH (Pickle model) (fs w))
                 (writable w) (stdout w))
    else (print MsgSaveError ;; sys_exit 1) w.

Definition samples : list (Z * Z * string) :=
  [ (100, 0, "Dark + No Motion");
    (100, 1, "Dark + Motion");
    (3000, 0, "Bright + No Motion");
    (3000, 1, "Bright + Motion");
    (1500, 1, "Medium + Motion") ]%string.

(** Lines 183 to 185; [int] raises on a prediction that is no finite
    number, and nothing catches it. *)
Fixpoint sample_predictions (model : Model) (l : list (Z * Z * string))
  : Script unit :=
  match l with
  | [] => ret tt
  | (l_, m_, desc) :: rest =>
      match py_int (np_clip (forest_predict model (of_Z l_) (of_Z m_))) with
      | inl e => raise e
      | inr pred => print (MsgSample desc pred) ;;
                    sample_predictions model rest
      end
  end.

(** Lines 18 to 89: load, clean, validate. *)
Definition clean_and_validate : Script (list NRow) :=
  df <- load_data ;;
  df <- drop_timestamp df ;;
  schema_guard df ;;
  df <- drop_missing (select_required df) ;;
  df <- remove_duplicates (dropna (to_numeric df)) ;;
  ret (validate df).

(** Lines 125 to 187: split, fit, evaluate, save, sample predictions. *)
Definition split_fit_save (df : list NRow) : Script unit :=
  let X_train := fst (train_test_split df) in
  let X_test := snd (train_test_split df) in
  print (MsgSplit (length X_train) (length X_test)) ;;
  let model := fit X_train in
  print MsgTrainingComplete ;;
  evaluate model X_train X_test ;;
  save_model model ;;
  sample_predictions model samples ;;
  print MsgReady.

(** Lines 17 to 187: the stages of train_model.py, from the loading of
    the table on.  The directory check of lines 10 and 11 comes before
    them; [train_script] below is the script with it. *)
Definition train_model : Script unit :=
  df <- clean_and_validate ;;
  check_enough df ;;
  df <- outlier_stage df ;;
  split_fit_save df.

(** *** What the stages compute, without the printing *)

Definition without_timestamp (df : Frame) : Frame :=
  if has_col "ts" df || has_col "Unnamed: 0" df then
    drop_columns
      (filter (fun c => has_col c df) ["ts"; "Unnamed: 0"]%string) df
  else df.

Definition without_missing (df : list (Row cell)) : list (Row cell) :=
  if (0 <? count_missing df)%nat then dropna_raw df else df.

Definition without_duplicates (df : list NRow) : list NRow :=
  if (0 <? count_duplicates df)%nat then drop_duplicates df else df.

(** The frame that reaches the validation stage. *)
Definition cleaned (df : Frame) : list NRow :=
  without_duplicates
    (dropna (to_numeric
               (without_missing (select_required (without_timestamp df))))).

(** The frame that reaches the row-count check. *)
Definition validated (df : Frame) : list NRow := validate (cleaned df).

(** The world after more lines were printed. *)
Definition emit (w : World) (msgs : list Msg) : World :=
  mkWorld (fs w) (writable w) (stdout w ++ msgs).

(** Messages of the stages before the row-count check. *)
Definition is_cleaning_msg (m : Msg) : bool :=
  match m with
  | MsgLoaded _ | MsgRemovedTimestamp | MsgFoundMissing _
  | MsgDroppedMissing _ | MsgRemovedDuplicates _ => true
  | _ => false
  end.

(** Messages that only the split, fit, evaluation and save stages
    print. *)
Definition is_fit_msg (m : Msg) : bool :=
  match m with
  | MsgSplit _ _ | MsgTrainingComplete | MsgTrainMetrics _ _
  | MsgTestMetrics _ _ | MsgImportance _ _ | MsgModelSaved
  | MsgSaveError | MsgSample _ _ | MsgReady => true
  | _ => false
  end.

End Training.

(* ===================================================================== *)
(** ** The whole training script: lines 10 and 11, then the stages *)
(* ===================================================================== *)

Definition DATA_DIR : string := "../data".

(** What the script finds at [DATA_DIR]: something ([os.path.exists] is
    true), or nothing, and then whether [os.makedirs] can create the
    directory. *)
Inductive DataDir : Type :=
| DirPresent
| DirMissing (creatable : bool).

(** Lines 10 and 11.  [os.makedirs] is called outside any [try]: when it
    cannot create the directory its [OSError] ends the script.  The
    result comes with what is at [DATA_DIR] afterwards. *)
Definition ensure_data_dir (d : DataDir) : Res unit * DataDir :=
  match d with
  | DirPresent => (Ok tt, DirPresent)
  | DirMissing true => (Ok tt, DirPresent)
  | DirMissing false => (Uncaught (LibError "OSError"), d)
  end.

Section WholeScript.
Context `{E : Externals}.

(** A file lies in a directory that exists: with nothing at [DATA_DIR]
    there is no table at [CSV_PATH]. *)
Definition dir_consistent (d : DataDir) (w : World) : Prop :=
  d = DirPresent \/ fs w CSV_PATH = None.

(** How a run of the script ends, and what it leaves. *)
Record ScriptRun : Type := mkRun {
  result : Res unit;
  world_after : World;
  dir_after : DataDir
}.

(** The whole of train_model.py. *)
Definition train_script (M : Metrics) (d : DataDir) (w : World)
  : ScriptRun :=
  match ensure_data_dir d with
  | (Ok _, d') => mkRun (fst (train_model M w)) (snd (train_model M w)) d'
  | (Exit c, d') => mkRun (Exit c) w d'
  | (Uncaught e, d') => mkRun (Uncaught e) w d'
  end.

End WholeScript.

(** The lines a run that ends by [sys.exit] prints last. *)
Definition is_exit_line (m : Msg) : bool :=
  match m with
  | MsgRunExportFirst | MsgCsvError | MsgMissingColumns _
  | MsgCollectMore | MsgSaveError => true
  | _ => false
  end.

(* ===================================================================== *)
(** ** The prediction service (app.py) *)
(* ===================================================================== *)

Unset Elimination Schemes.
(** A parsed JSON value; an object is the Python dict, as its items.  A
    number is given by the double it stands for ([JNum]: a literal with a
    fraction or an exponent, or a whole number in the doubles' range as
    [float] converts it), or, for a whole number of any size, as the
    Python [int] the parser makes of it ([JInt]). *)
Inductive json : Type :=
| JNull
| JBool (b : bool)
| JNum (x : pyfloat)
| JInt (n : Z)
| JStr (s : string)
| JArr (items : list json)
| JObj (items : list (string * json)).
Set Elimination Schemes.

(** What [request.get_json()] does with the request: it raises (wrong
    content type, malformed JSON) or returns the parsed value. *)
Inductive Body : Type :=
| BodyRejected (e : pyexn)
| BodyJson (j : json).

Inductive Request : Type :=
| GetStatus
| PostPredict (b : Body)
| GetRoot.

Inductive ErrText : Type :=
| ModelNotAvailable
| StrOf (e : pyexn).

Inductive Payload : Type :=
| Text (s : string)
| JsonLed (n : Z)
| JsonError (msg : ErrText)
| JsonRoot (model_loaded : bool).

Record Response : Type := mkResponse { code : Z; payload : Payload }.

Definition ebind {A B : Type} (m : pyexn + A) (k : A -> pyexn + B)
  : pyexn + B :=
  match m with
  | inl e => inl e
  | inr a => k a
  end.

Declare Scope try_scope.
Delimit Scope try_scope with try.
Notation "x <- m ;; k" := (ebind m (fun x => k))
  (at level 61, m at next level, right associativity) : try_scope.

Definition get_json (b : Body) : pyexn + json :=
  match b with
  | BodyRejected e => inl e
  | BodyJson j => inr j
  end.

Fixpoint dict_get (key : string) (items : list (string * json))
  (default : json) : json :=
  match items with
  | [] => default
  | (k, v) :: rest =>
      if String.eqb key k then v else dict_get key rest default
  end.

(** [data.get(key, 0)]: only a dict has [get]. *)
Definition data_get (data : json) (key : string) : pyexn + json :=
  match data with
  | JObj items => inr (dict_get key items (JNum (of_Z 0)))
  | _ => inl AttributeError
  end.

Section Service.
Context `{E : Externals}.

(** Python's [float(v)] on a parsed JSON value.  An [int] is rounded to
    the nearest double; one too large for the doubles raises
    [OverflowError]. *)
Definition py_float (v : json) : pyexn + pyfloat :=
  match v with
  | JNum x => inr x
  | JInt n =>
      match round64 (inject_Z n) with
      | Fin q => inr (Fin q)
      | _ => inl OverflowError
      end
  | JBool b => inr (of_Z (if b then 1 else 0))
  | JStr s =>
      match float_of_str s with
      | Some x => inr x
      | None => inl ValueError
      end
  | JNull | JArr _ | JObj _ => inl TypeError
  end.

Inductive LogLine : Type :=
| LogModelLoaded
| LogLoadError
| LogFileNotFound
| LogInput (ldr_in motion_in : pyfloat) (pred : Z)
| LogPredictionError (e : pyexn).

(** The process: the global [model] and what it has printed. *)
Record Server : Type := mkServer {
  model : option Model;
  log : list LogLine
}.

Definition initial : Server := mkServer None [].

Definition say (l : LogLine) (s : Server) : Server :=
  mkServer (model s) (log s ++ [l]).

(** [os.path.exists(MODEL_PATH)]. *)
Definition path_exists (disk : FileSystem) : bool :=
  match disk MODEL_PATH with
  | Some _ => true
  | None => false
  end.

(** Lines 20 to 33. *)
Definition load_model (disk : FileSystem) (s : Server) : bool * Server :=
  if path_exists disk then
    match disk MODEL_PATH with
    | Some (Pickle m) =>
        (true, say LogModelLoaded (mkServer (Some m) (log s)))
    | _ => (false, say LogLoadError (mkServer None (log s)))
    end
  else (false, say LogFileNotFound s).

Definition is_load_line (l : LogLine) : bool :=
  match l with
  | LogModelLoaded | LogLoadError | LogFileNotFound => true
  | _ => false
  end.

(** How often [load_model] has run: it prints exactly one of its three
    lines each time, and nothing else prints them. *)
Definition load_calls (s : Server) : nat :=
  length (filter is_load_line (log s)).

(** Lines 39 to 47. *)
Definition status (disk : FileSystem) (s : Server) : Response * Server :=
  if path_exists disk then
    let s' := match model s with
              | None => snd (load_model disk s)
              | Some _ => s
              end in
    (mkResponse 200 (Text "ready"), s')
  else (mkResponse 404 (Text "not_ready"), s).

(** The [try] block of lines 63 to 69; [None.predict] is an
    [AttributeError]. *)
Definition compute_led (b : Body) (s : Server)
  : pyexn + (pyfloat * pyfloat * Z) :=
  (data <- get_json b ;;
   v <- data_get data "ldr" ;;
   ldr_in <- py_float v ;;
   v <- data_get data "motion" ;;
   motion_in <- py_float v ;;
   pred <- match model s with
           | Some m => call_predict m ldr_in motion_in
           | None => inl AttributeError
           end ;;
   pred <- led_of_pred pred ;;
   inr (ldr_in, motion_in, pred))%try.

(** Lines 62 to 77. *)
Definition answer (b : Body) (s : Server) : Response * Server :=
  match compute_led b s with
  | inr (ldr_in, motion_in, pred) =>
      (mkResponse 200 (JsonLed pred), say (LogInput ldr_in motion_in pred) s)
  | inl e =>
      (mkResponse 500 (JsonError (StrOf e)), say (LogPredictionError e) s)
  end.

(** Lines 54 to 77. *)
Definition predict (disk : FileSystem) (b : Body) (s : Server)
  : Response * Server :=
  match model s with
  | None =>
      let (loaded, s') := load_model disk s in
      if negb loaded then
        (mkResponse 404 (JsonError ModelNotAvailable), s')
      else answer b s'
  | Some _ => answer b s
  end.

(** Lines 84 to 89. *)
Definition root (s : Server) : Response * Server :=
  (mkResponse 200
     (JsonRoot (match model s with Some _ => true | None => false end)), s).

(** One request, served with the disk as it is at that moment. *)
Definition handle (disk : FileSystem) (r : Request) (s : Server)
  : Response * Server :=
  match r with
  | GetStatus => status disk s
  | PostPredict b => predict disk b s
  | GetRoot => root s
  end.


End Service.

(* ===================================================================== *)
(** ** Vocabulary of the specification, and a concrete instance *)
(* ===================================================================== *)

(** A training sample as the specification describes it: three finite
    numbers, light level in [0, 4095], motion 0 or 1, label in
    [0, 255]. *)
Definition valid_sample (r : NRow) : Prop :=
  exists l m d : Q,
    r = mkRow (Fin l) (Fin m) (Fin d) /\
    (0 <= l <= 4095)%Q /\ (m == 0 \/ m == 1)%Q /\ (0 <= d <= 255)%Q.

Definition valid_sampleb (r : NRow) : bool :=
  ldr_ok r && motion_ok r && led_ok r.


(** A stand-in for the libraries: the regressor always answers the label
    it was given first, the split takes every fifth row for testing. *)
Module Demo.

Definition split (df : list NRow) : list NRow * list NRow :=
  (skipn (length df / 5) df, firstn (length df / 5) df).

Definition first_label (rows : list NRow) : pyfloat :=
  match rows with
  | [] => NaN
  | r :: _ => led r
  end.

Definition libs : Externals := {|
  Model := pyfloat;
  str_to_numeric := fun _ => NaN;
  train_test_split := split;
  fit := first_label;
  forest_predict := fun m _ _ => m;
  float_of_str := fun _ => None;
  call_predict := fun m x y =>
    if is_finite x && is_finite y then inr m
    else inl (LibError "Input contains NaN or infinity")
|}.

Definition metrics : @Metrics libs := {|
  mean_absolute_error := fun _ _ => of_Z 0;
  r2_score := fun _ _ => of_Z 1;
  feature_importances := fun _ => (Fin (9 # 10), Fin (1 # 10))
|}.

Definition num (n : nat) : cell := CNum (of_nat n).

(** [n] distinct valid rows followed by three invalid ones, with the
    exporter's timestamp column. *)
Definition history (n : nat) : Frame :=
  [ ("ts"%string, map num (seq 0 (n + 3)));
    ("ldr"%string, map (fun i => num (10 * i)) (seq 0 n)
                    ++ [num 5000; num 10; num 10]);
    ("motion"%string, map (fun i => num (i mod 2)) (seq 0 n)
                       ++ [num 0; num 2; num 0]);
    ("led"%string, map num (seq 0 n) ++ [num 0; num 0; num 300]) ].

Definition disk_with (f : option (@File libs)) (path : string)
  : @FileSystem libs :=
  fun p => if String.eqb p path then f else None.

Definition world (n : nat) (can_write : bool) : @World libs :=
  mkWorld (disk_with (Some (Csv (history n))) CSV_PATH) can_write [].

(** A disk whose model path holds the regressor answering [x], a disk
    without artifact, and a process that has the regressor answering [x]
    cached. *)
Definition artifact (x : pyfloat) : @FileSystem libs :=
  disk_with (Some (@Pickle libs x)) MODEL_PATH.

Definition no_artifact : @FileSystem libs := disk_with None MODEL_PATH.

Definition holding (x : pyfloat) : @Server libs :=
  @mkServer libs (Some x) [].

(** A machine with no file at all. *)
Definition bare : @World libs := mkWorld no_artifact true [].

End Demo.

Definition finite_led (r : NRow) : Prop := is_finite (led r) = true.

(** Frames for the outlier stage: ten rows at 100 and one at 200; nine
    rows at 100 and one at 200 (the outlier is exactly a tenth). *)
Module OutlierDemo.

Definition row_with_led (d : Z) : NRow := mkRow (of_Z 500) (of_Z 0) (of_Z d).


Definition tenth : list NRow :=
  map row_with_led (repeat 100 9 ++ [200]).

Import PrimFloat.

(** Labels that are doubles: one at 99.69999999999999 (or at 250), ten at
    100, ten at 100.2.  The quartiles are 100 and 100.2; in binary64 the
    lower bound is the first label itself, while the exact value of
    [Q1 - 1.5 * IQR] lies above it. *)
Definition labelled (x : PrimFloat.float) : NRow :=
  mkRow (of_Z 500) (of_Z 0) (of_prim x).

Definition d99_7 : PrimFloat.float := 0x1.8ecccccccccccp+6%float.
Definition d100 : PrimFloat.float := 0x1.9p+6%float.
Definition d100_2 : PrimFloat.float := 0x1.90ccccccccccdp+6%float.

Definition edge : list NRow :=
  map labelled (d99_7 :: repeat d100 10 ++ repeat d100_2 10).


(** The doubles 0.1, 0.2 and 0.3, and the quartiles numpy gives for
    them: 0.15000000000000002 and 0.25. *)
Definition decimals : list pyfloat :=
  map of_prim [0x1.999999999999ap-4; 0x1.999999999999ap-3;
               0x1.3333333333333p-2]%float.
Definition decimals_Q1 : pyfloat := of_prim 0x1.3333333333334p-3%float.
Definition decimals_Q3 : pyfloat := of_prim 0x1p-2%float.

End OutlierDemo.

(** A finite number of magnitude at most [2^K]. *)
Definition bounded (K : Z) (x : pyfloat) : Prop :=
  exists q : Q, x = Fin q /\ (Qabs q <= pow2 K)%Q.

(** The label of the row is a number of [0, 255], as after validation. *)
Definition label_in_range (r : NRow) : Prop := in_0_255 (led r) = true.

(** The same arithmetic on the machine's doubles, to compare [round64]
    with. *)
Module Machine.
Import PrimFloat.

(** Lines 104 and 105 on doubles. *)
Definition machine_bounds (Q1 Q3 : PrimFloat.float)
  : PrimFloat.float * PrimFloat.float :=
  let IQR := PrimFloat.sub Q3 Q1 in
  (PrimFloat.sub Q1 (PrimFloat.mul 0x1.8p+0%float IQR),
   PrimFloat.add Q3 (PrimFloat.mul 0x1.8p+0%float IQR)).

(** Pairs of doubles to try [round64] on: ordinary values, ties,
    subnormals, the largest double. *)
Definition machine_samples : list (PrimFloat.float * PrimFloat.float) :=
  [ (0x1.90ccccccccccdp+6, 0x1.9p+6);
    (0x1.8p+0, 0x1.99999999999a0p-3);
    (0x1.9p+6, 0x1.3333333333338p-2);
    (0x1.90ccccccccccdp+6, 0x1.3333333333338p-2);
    (0x1.9066666666666p+6, 0x1.9p+6);
    (0x1.999999999999ap-4, 0x1.999999999999ap-3);
    (0x1.8p+0, 0x1.9999999999800p-4);
    (0x1.9p+6, 0x1.3333333333320p-3);
    (0x1.fffffffffffffp+1023, 0x1.fffffffffffffp+1023);
    (0x1.fffffffffffffp+1023, 0x1p+970);
    (0x1.fffffffffffffp+1023, 0x1.fffffffffffffp+969);
    (0x0.0000000000001p-1022, 0x0.0000000000001p-1022);
    (0x0.0000000000001p-1022, 0x1.8p+1);
    (0x1p-1022, 0x1p-1);
    (0x1p+53, 0x1p+0);
    (0x1.0000000000001p+53, 0x1.8p+1);
    (0x1.e240ca57a786cp+16, -0x1.01f31f46ed246p-13);
    (0x1.fep+7, 0x1.8p-1);
    (0x1.8p+1, 0x1.999999999999ap-4) ]%float.

Definition machine_agrees (t : PrimFloat.float * PrimFloat.float) : bool :=
  feqb (of_prim (PrimFloat.add (fst t) (snd t)))
       (f64_add (of_prim (fst t)) (of_prim (snd t)))
  && feqb (of_prim (PrimFloat.sub (fst t) (snd t)))
          (f64_sub (of_prim (fst t)) (of_prim (snd t)))
  && feqb (of_prim (PrimFloat.mul (fst t) (snd t)))
          (f64_mul (of_prim (fst t)) (of_prim (snd t))).

End Machine.

(* ===================================================================== *)
(** ** What a run of the training script prints and returns *)
(* ===================================================================== *)

Section TrainingTrace.
Context `{E : Externals}.
Variable M : Metrics.

Definition timestamp_lines (df : Frame) : list Msg :=
  if has_col "ts" df || has_col "Unnamed: 0" df then [MsgRemovedTimestamp]
  else [].

Definition missing_lines (df : list (Row cell)) : list Msg :=
  if (0 <? count_missing df)%nat then
    [MsgFoundMissing (count_missing df);
     MsgDroppedMissing (length df - length (dropna_raw df))]
  else [].

Definition duplicate_lines (df : list NRow) : list Msg :=
  if (0 <? count_duplicates df)%nat then
    [MsgRemovedDuplicates (count_duplicates df)]
  else [].

(** The lines of a cleaning stage that runs to its end. *)
Definition cleaning_lines (df : Frame) : list Msg :=
  let raw := select_required (without_timestamp df) in
  MsgLoaded (frame_len df) :: timestamp_lines df
    ++ missing_lines raw
    ++ duplicate_lines (dropna (to_numeric (without_missing raw))).

Definition outlier_line (df : list NRow) : Msg :=
  if outlier_guard df then MsgRemovedOutliers (length (outliers df))
  else MsgNoOutliers.

Definition eval_lines (model : Model) (train test : list NRow) : list Msg :=
  let y_pred_train := map np_clip (predict_all model train) in
  let y_pred_test := map np_clip (predict_all model test) in
  [ MsgTrainMetrics (mean_absolute_error M (map led train) y_pred_train)
                    (r2_score M (map led train) y_pred_train);
    MsgTestMetrics (mean_absolute_error M (map led test) y_pred_test)
                   (r2_score M (map led test) y_pred_test);
    MsgImportance (fst (feature_importances M model))
                  (snd (feature_importances M model)) ].

(** The model the fit stage produces from the frame that reaches it. *)
Definition fitted (df : list NRow) : Model :=
  fit (fst (train_test_split df)).

Definition fit_lines (df : list NRow) : list Msg :=
  let X_train := fst (train_test_split df) in
  let X_test := snd (train_test_split df) in
  MsgSplit (length X_train) (length X_test) :: MsgTrainingComplete
    :: eval_lines (fit X_train) X_train X_test.

(** The sample predictions: the lines printed and the exception, if one
    stops the loop. *)
Fixpoint sample_lines (model : Model) (l : list (Z * Z * string))
  : list Msg * option pyexn :=
  match l with
  | [] => ([], None)
  | (l_, m_, desc) :: rest =>
      match py_int (np_clip (forest_predict model (of_Z l_) (of_Z m_))) with
      | inl e => ([], Some e)
      | inr pred =>
          (MsgSample desc pred :: fst (sample_lines model rest),
           snd (sample_lines model rest))
      end
  end.

(** How the script ends once the model is written. *)
Definition after_save (model : Model) : Res unit * list Msg :=
  match snd (sample_lines model samples) with
  | None => (Ok tt, fst (sample_lines model samples) ++ [MsgReady])
  | Some e => (Uncaught e, fst (sample_lines model samples))
  end.

End TrainingTrace.


Section TrainingOutcome.
Context `{E : Externals}.
Variable M : Metrics.

(** The end of lines 125 to 187 on a frame [df], stage by stage: what is
    returned and the world that is left. *)
Definition split_fit_save_outcome (df : list NRow) (w : World)
  : Res unit * World :=
  if writable w then
    (fst (after_save (fitted df)),
     mkWorld (write_file MODEL_PATH (Pickle (fitted df)) (fs w)) true
             (stdout w ++ fit_lines M df
                ++ MsgModelSaved :: snd (after_save (fitted df))))
  else (Exit 1, emit w (fit_lines M df ++ [MsgSaveError])).

(** The same for the whole script. *)
Definition train_model_outcome (w : World) : Res unit * World :=
  match fs w CSV_PATH with
  | None => (Exit 1, emit w [MsgCsvNotFound; MsgRunExportFirst])
  | Some (Csv df) =>
      match missing_cols (without_timestamp df) with
      | [] =>
          let v := validated df in
          if (length v <? 50)%nat then
            (Exit 1,
             emit w (cleaning_lines df
                       ++ [MsgOnlyValid (length v); MsgCollectMore]))
          else
            split_fit_save_outcome (remove_outliers v)
              (emit w (cleaning_lines df
                         ++ [MsgCleanDataset (length v); outlier_line v]))
      | cols =>
          (Exit 1,
           emit w (MsgLoaded (frame_len df) :: timestamp_lines df
                     ++ [MsgMissingColumns cols]))
      end
  | Some _ => (Exit 1, emit w [MsgCsvError])
  end.

End TrainingOutcome.


(* ===================================================================== *)
(** ** Vocabulary for the service *)
(* ===================================================================== *)

Definition has_key (key : string) (items : list (string * json)) : bool :=
  existsb (fun kv => String.eqb key (fst kv)) items.

Section ServiceVocabulary.
Context `{E : Externals}.

(** What a process that holds the model [m] answers to a request,
    according to the specification's Loaded state: the prediction comes
    from [m], whatever the disk holds. *)
Definition respond_loaded (m : Model) (disk : FileSystem) (r : Request)
  : Response :=
  match r with
  | GetStatus =>
      if path_exists disk then mkResponse 200 (Text "ready")
      else mkResponse 404 (Text "not_ready")
  | PostPredict b => fst (answer b (mkServer (Some m) []))
  | GetRoot => mkResponse 200 (JsonRoot true)
  end.

End ServiceVocabulary.

(** A request body with both readings, as the device sends it. *)
Definition reading (l m : Z) : Body :=
  BodyJson (JObj [("ldr"%string, JNum (of_Z l));
                  ("motion"%string, JNum (of_Z m))]).


(* ===================================================================== *)
(** ** Line 108 in binary64 *)
(* ===================================================================== *)

(** The comparison [len(outliers) < len(df) * 0.1] as Python computes it:
    both counts become doubles and the product is rounded. *)
Module Binary64.
Import PrimFloat.

Definition of_count (n : Z) : PrimFloat.float :=
  PrimFloat.of_uint63 (Uint63.of_Z n).

(** The double nearest to one tenth. *)
Definition tenth : PrimFloat.float := 0x1.999999999999ap-4%float.

Definition guard (c n : Z) : bool :=
  PrimFloat.ltb (of_count c) (PrimFloat.mul (of_count n) tenth).

(** [k; k-1; ...; 0]. *)
Fixpoint down_from (k : nat) : list Z :=
  match k with
  | O => [0]
  | S k' => Z.of_nat k :: down_from k'
  end.

(** Whether the rounded comparison and the exact one agree for every
    row count up to [N] and every count of outliers among them. *)
Definition agree_upto (N : nat) : bool :=
  forallb (fun n =>
             forallb (fun c => Bool.eqb (guard c n) (10 * c <? n))
                     (down_from (Z.to_nat n)))
          (down_from N).

End Binary64.


(* ===================================================================== *)
(** ** Vocabulary for the cleaning stage *)
(* ===================================================================== *)

(** No cell of the row is missing. *)
Definition no_nan (r : NRow) : Prop := existsb is_nan (row_cells r) = false.

(** No two rows of the frame are equal. *)
Definition distinct_rows (df : list NRow) : Prop :=
  ForallOrdPairs (fun r s => row_eqb r s = false) df.

(* ===================================================================== *)
(** ** The telemetry exporter (export_thingsboard.py) *)
(* ===================================================================== *)

(** What pandas does for the exporter. *)
Class ExporterLibs : Type := {
  (** lines 34 to 38: the records of one key as a two-column frame
      ([ts], the key); raises on records pandas cannot shape *)
  frame_of_records : string -> json -> pyexn + Frame;
  (** [key in data] and [data\[key\]] when the reply is no JSON object *)
  lookup_other : string -> json -> pyexn + option json;
  (** [pd.merge_asof(left.sort_values("ts"), right.sort_values("ts"),
      on="ts", tolerance=pd.Timedelta('5s'))] *)
  merge_asof : Frame -> Frame -> pyexn + Frame;
  (** the frame [pd.read_csv] reads back from what
      [to_csv(path, index=False)] writes *)
  csv_round_trip : Frame -> Frame
}.

(** What [requests.get] comes back with for one key: it raises, or there
    is a reply with a status code and a body that [r.json()] parses or
    not. *)
Inductive HttpReply : Type :=
| ConnectionFailed (e : pyexn)
| Replied (status : Z) (body : pyexn + json).

Inductive ExportMsg : Type :=
| MsgNoData (key : string)
| MsgFetched (n : nat) (key : string)
| MsgFetchError (key : string) (e : pyexn)
| MsgNothingDownloaded
| MsgCsvSaved.

Definition TELEMETRY_KEYS : list string := ["ldr"; "motion"; "led"]%string.

(** [r.raise_for_status()]: an [HTTPError] for a 4xx or 5xx status. *)
Definition raise_for_status (status : Z) : pyexn + unit :=
  if (400 <=? status) && (status <? 600)
  then inl (LibError "HTTPError") else inr tt.

(** [pd.DataFrame(columns=\["ts", key\])]. *)
Definition empty_frame (key : string) : Frame := [("ts"%string, []); (key, [])].

Section Exporter.
Context `{E : Externals} `{X : ExporterLibs}.

(** [data\[key\]] if [key in data], for the parsed reply [data]. *)
Definition lookup_key (key : string) (data : json) : pyexn + option json :=
  match data with
  | JObj items =>
      inr (if has_key key items then Some (dict_get key items JNull)
           else None)
  | other => lookup_other key other
  end.

(** Lines 16 to 38; the second component tells whether the warning of
    line 31 was printed. *)
Definition fetch_telemetry (remote : string -> HttpReply) (key : string)
  : pyexn + (Frame * bool) :=
  match remote key with
  | ConnectionFailed e => inl e
  | Replied status body =>
      (_ <- raise_for_status status ;;
       data <- body ;;
       found <- lookup_key key data ;;
       match found with
       | None => inr (empty_frame key, true)
       | Some records =>
           df <- frame_of_records key records ;;
           inr (df, false)
       end)%try
  end.

(** Lines 41 to 48: the frames fetched, in key order, and the lines
    printed. *)
Fixpoint fetch_all (remote : string -> HttpReply) (keys : list string)
  : list Frame * list ExportMsg :=
  match keys with
  | [] => ([], [])
  | key :: rest =>
      let later := fetch_all remote rest in
      match fetch_telemetry remote key with
      | inr (df, warned) =>
          (df :: fst later,
           (if warned then [MsgNoData key] else [])
             ++ MsgFetched (frame_len df) key :: snd later)
      | inl e => (fst later, MsgFetchError key e :: snd later)
      end
  end.

(** Lines 56 and 57. *)
Fixpoint merge_all (merged : Frame) (dfs : list Frame) : pyexn + Frame :=
  match dfs with
  | [] => inr merged
  | df :: rest =>
      match merge_asof merged df with
      | inl e => inl e
      | inr merged' => merge_all merged' rest
      end
  end.

Record ExportRun : Type := mkExportRun {
  export_result : Res unit;
  export_stdout : list ExportMsg;
  export_fs : FileSystem
}.

(** The whole of export_thingsboard.py, against the store [remote] and
    the disk [disk]; [dir_ok] tells whether the file can be written (the
    script does not create [../data]). *)
Definition export_thingsboard (remote : string -> HttpReply)
  (dir_ok : bool) (disk : FileSystem) : ExportRun :=
  let fetched := fetch_all remote TELEMETRY_KEYS in
  match fst fetched with
  | [] => mkExportRun (Exit 1) (snd fetched ++ [MsgNothingDownloaded]) disk
  | first :: rest =>
      match merge_all first rest with
      | inl e => mkExportRun (Uncaught e) (snd fetched) disk
      | inr merged =>
          if dir_ok then
            mkExportRun (Ok tt) (snd fetched ++ [MsgCsvSaved])
              (write_file CSV_PATH (Csv (csv_round_trip merged)) disk)
          else mkExportRun (Uncaught (LibError "OSError")) (snd fetched) disk
      end
  end.

(** The keys whose fetch went through. *)
Definition fetched_keys (remote : string -> HttpReply) (keys : list string)
  : list string :=
  filter (fun key => match fetch_telemetry remote key with
                     | inr _ => true
                     | inl _ => false
                     end) keys.

End Exporter.

(** A stand-in for pandas in the exporter: every list of records gives an
    empty two-column frame, a merge appends the right frame's value
    columns. *)
Module ExportDemo.

Definition libs : ExporterLibs := {|
  frame_of_records := fun key _ => inr (empty_frame key);
  lookup_other := fun _ _ => inl TypeError;
  merge_asof := fun l r =>
    inr (l ++ filter (fun c => negb (String.eqb (fst c) "ts")) r);
  csv_round_trip := fun df => df
|}.

(** A store that has [ldr] and [led], answers 503 for [motion]. *)
Definition flaky (key : string) : HttpReply :=
  if String.eqb key "motion" then Replied 503 (inl ValueError)
  else Replied 200 (inr (JObj [(key, JArr [])])).

(** A store that is down, and one that answers but holds nothing. *)
Definition down (key : string) : HttpReply := Replied 500 (inl ValueError).
Definition hollow (key : string) : HttpReply := Replied 200 (inr (JObj [])).

End ExportDemo.


(** Libraries whose regressor answers [NaN] to everything. *)
Module NanDemo.

Definition libs : Externals := {|
  Model := unit;
  str_to_numeric := fun _ => NaN;
  train_test_split := Demo.split;
  fit := fun _ => tt;
  forest_predict := fun _ _ _ => NaN;
  float_of_str := fun _ => None;
  call_predict := fun _ _ _ => inr NaN
|}.

Definition metrics : @Metrics libs := {|
  mean_absolute_error := fun _ _ => NaN;
  r2_score := fun _ _ => NaN;
  feature_importances := fun _ => (NaN, NaN)
|}.

Definition world : @World libs :=
  @mkWorld libs
    (fun p => if String.eqb p CSV_PATH then Some (Csv (Demo.history 50))
              else None)
    true [].

End NanDemo.


Section ServiceVocabulary2.
Context `{E : Externals}.


End ServiceVocabulary2.


(* ===================================================================== *)
(** ** Floats: order facts *)
(* ===================================================================== *)

Lemma Qlt_bool_iff (a b : Q) : Qlt_bool a b = true <-> (a < b)%Q.
Proof.
  unfold Qlt_bool. rewrite negb_true_iff.
  split; intro H.
  - apply Qnot_le_lt. intro Hle. apply Qle_bool_iff in Hle. congruence.
  - destruct (Qle_bool b a) eqn:Hb; [|reflexivity].
    apply Qle_bool_iff in Hb. exfalso. exact (Qlt_not_le _ _ H Hb).
Qed.

Lemma Qle_bool_false (a b : Q) : Qle_bool a b = false <-> (b < a)%Q.
Proof.
  rewrite <- Qlt_bool_iff. unfold Qlt_bool.
  destruct (Qle_bool a b); simpl; intuition congruence.
Qed.

Lemma fle_Fin (a b : Q) : fle (Fin a) (Fin b) = true <-> (a <= b)%Q.
Proof. simpl. apply Qle_bool_iff. Qed.

Lemma flt_Fin (a b : Q) : flt (Fin a) (Fin b) = true <-> (a < b)%Q.
Proof. simpl. apply Qlt_bool_iff. Qed.

Lemma feqb_Fin (a b : Q) : feqb (Fin a) (Fin b) = true <-> (a == b)%Q.
Proof. simpl. apply Qeq_bool_iff. Qed.

(** Between two finite numbers, [not (x < y)] is [y <= x]. *)
Lemma flt_negb_fle (a b : Q) : flt (Fin a) (Fin b) = negb (fle (Fin b) (Fin a)).
Proof. reflexivity. Qed.

(** [np.clip(., 0, 255)] case by case. *)
Lemma np_clip_Fin (a : Q) :
  np_clip (Fin a) =
  if Qle_bool 0 a then if Qle_bool a 255 then Fin a else of_Z 255
  else of_Z 0.
Proof.
  unfold np_clip, fmax, fmin, of_Z, flt, Qlt_bool.
  change (inject_Z 0) with 0%Q. change (inject_Z 255) with 255%Q.
  simpl is_nan. simpl orb. cbv iota.
  destruct (Qle_bool 0 a) eqn:H0; simpl negb; cbv iota; simpl is_nan;
    simpl orb; cbv iota.
  - destruct (Qle_bool a 255); reflexivity.
  - reflexivity.
Qed.

Lemma np_clip_infinite :
  np_clip NegInf = of_Z 0 /\ np_clip PosInf = of_Z 255 /\ np_clip NaN = NaN.
Proof. repeat split. Qed.

Lemma clamp255_minmax (n : Z) : clamp255 n = Z.max 0 (Z.min 255 n).
Proof.
  unfold clamp255, py_max, py_min.
  destruct (n <? 255) eqn:H1;
    [apply Z.ltb_lt in H1 | apply Z.ltb_ge in H1];
    destruct (0 <? _) eqn:H2;
    try apply Z.ltb_lt in H2; try apply Z.ltb_ge in H2; lia.
Qed.

(* ===================================================================== *)
(** ** The clamp *)
(* ===================================================================== *)

Ltac q_bool :=
  repeat match goal with
    | H : Qle_bool _ _ = true |- _ => apply Qle_bool_iff in H
    | H : Qle_bool _ _ = false |- _ => apply Qle_bool_false in H
    | |- Qle_bool _ _ = true => apply Qle_bool_iff
    end.

Lemma np_clip_in_range (x : pyfloat) :
  is_nan x = false -> in_0_255 (np_clip x) = true.
Proof.
  destruct x as [| |a|]; intro Hx; try discriminate; try reflexivity.
  rewrite np_clip_Fin. unfold in_0_255, of_Z.
  change (inject_Z 0) with 0%Q. change (inject_Z 255) with 255%Q.
  destruct (Qle_bool 0 a) eqn:H0; [destruct (Qle_bool a 255) eqn:H1|];
    simpl; try reflexivity.
  rewrite H0, H1. reflexivity.
Qed.

Lemma np_clip_fixes_range (x : pyfloat) :
  in_0_255 x = true -> np_clip x = x.
Proof.
  unfold in_0_255. intro H. apply andb_true_iff in H as [H0 H1].
  destruct x as [| |a|]; try discriminate.
  rewrite np_clip_Fin. simpl in H0, H1.
  change (inject_Z 0) with 0%Q in H0. change (inject_Z 255) with 255%Q in H1.
  rewrite H0, H1. reflexivity.
Qed.

Lemma np_clip_monotone (x y : pyfloat) :
  fle x y = true -> fle (np_clip x) (np_clip y) = true.
Proof.
  destruct x as [| |a|], y as [| |b|]; intro H; try discriminate;
    try reflexivity.
  - (* -inf <= b *)
    rewrite np_clip_Fin. change (np_clip NegInf) with (Fin 0).
    unfold of_Z. change (inject_Z 255) with 255%Q.
    change (inject_Z 0) with 0%Q.
    destruct (Qle_bool 0 b) eqn:H0; [destruct (Qle_bool b 255) eqn:H1|];
      try reflexivity.
    simpl. exact H0.
  - (* a <= b *)
    rewrite !np_clip_Fin. unfold of_Z. change (inject_Z 255) with 255%Q.
    change (inject_Z 0) with 0%Q. simpl in H.
    destruct (Qle_bool 0 a) eqn:Ha0; [destruct (Qle_bool a 255) eqn:Ha1|];
      (destruct (Qle_bool 0 b) eqn:Hb0; [destruct (Qle_bool b 255) eqn:Hb1|]);
      simpl; try reflexivity; q_bool; lra.
  - (* a <= +inf *)
    rewrite np_clip_Fin. change (np_clip PosInf) with (Fin 255).
    unfold of_Z. change (inject_Z 255) with 255%Q.
    change (inject_Z 0) with 0%Q.
    destruct (Qle_bool 0 a) eqn:H0; [destruct (Qle_bool a 255) eqn:H1|];
      try reflexivity.
    simpl. exact H1.
Qed.

(** C6.  The clamp to [0, 255], both as the service applies it to an
    integer ([max(0, min(255, n))]) and as the evaluation stage applies it
    to a float ([np.clip(x, 0, 255)]): it leaves every value of [0, 255]
    alone, it is monotone, and its result lies in [0, 255] (for
    [np.clip], on every number: it hands a [NaN] through). *)
Theorem clamp_idempotent_monotone_bounded :
  (forall n : Z, 0 <= n <= 255 -> clamp255 n = n) /\
  (forall a b : Z, a <= b -> clamp255 a <= clamp255 b) /\
  (forall n : Z, 0 <= clamp255 n <= 255) /\
  (forall x : pyfloat, in_0_255 x = true -> np_clip x = x) /\
  (forall x y : pyfloat,
      fle x y = true -> fle (np_clip x) (np_clip y) = true) /\
  (forall x : pyfloat, is_nan x = false -> in_0_255 (np_clip x) = true).
Proof.
  repeat split; intros; rewrite ?clamp255_minmax; try lia.
  - now apply np_clip_fixes_range.
  - now apply np_clip_monotone.
  - now apply np_clip_in_range.
Qed.

Lemma clamp_idempotent_monotone_bounded_witness :
  clamp255 200 = 200 /\
  clamp255 (-7) <= clamp255 300 /\
  np_clip (Fin (401 # 2)) = Fin (401 # 2) /\
  fle (np_clip (Fin (-3 # 1))) (np_clip (Fin (1000 # 3))) = true /\
  in_0_255 (np_clip PosInf) = true.
Proof.
  destruct clamp_idempotent_monotone_bounded
    as (Hid & Hmono & _ & Hfid & Hfmono & Hfrange).
  split; [apply Hid; lia|].
  split; [apply Hmono; lia|].
  split; [apply Hfid; reflexivity|].
  split; [apply Hfmono; reflexivity|].
  apply Hfrange; reflexivity.
Defined.

(* ===================================================================== *)
(** ** The validation stage *)
(* ===================================================================== *)

Lemma filter_twice {A : Type} (p q : A -> bool) (l : list A) :
  filter q (filter p l) = filter (fun x => p x && q x) l.
Proof.
  induction l as [|x l IH]; simpl; [reflexivity|].
  destruct (p x); simpl; [destruct (q x)|]; now rewrite IH.
Qed.

Lemma between_iff (lo hi : Z) (x : pyfloat) :
  fle (of_Z lo) x && fle x (of_Z hi) = true <->
  exists q : Q, x = Fin q /\ (inject_Z lo <= q <= inject_Z hi)%Q.
Proof.
  split.
  - intro H. apply andb_true_iff in H as [H1 H2].
    destruct x as [| |q|]; try discriminate.
    exists q. split; [reflexivity|].
    split; [now apply fle_Fin in H1 | now apply fle_Fin in H2].
  - intros (q & -> & H1 & H2).
    apply andb_true_iff. split; now apply fle_Fin.
Qed.

Lemma motion_ok_iff (r : NRow) :
  motion_ok r = true <->
  exists q : Q, motion r = Fin q /\ (q == 0 \/ q == 1)%Q.
Proof.
  unfold motion_ok. simpl existsb. rewrite orb_false_r, orb_true_iff.
  split.
  - destruct (motion r) as [| |q|]; intros [H|H]; try discriminate;
      exists q; (split; [reflexivity|]); apply feqb_Fin in H; auto.
  - intros (q & -> & [H|H]); [left|right]; now apply feqb_Fin.
Qed.

Lemma valid_sampleb_iff (r : NRow) :
  valid_sampleb r = true <-> valid_sample r.
Proof.
  unfold valid_sampleb, valid_sample.
  rewrite 2!andb_true_iff. unfold ldr_ok, led_ok.
  rewrite !between_iff, motion_ok_iff.
  destruct r as [l m d]; simpl.
  split.
  - intros [[(ql & -> & Hl) (qm & -> & Hm)] (qd & -> & Hd)].
    exists ql, qm, qd. auto.
  - intros (ql & qm & qd & Heq & Hl & Hm & Hd).
    injection Heq as -> -> ->. eauto 10.
Qed.

Lemma validate_filter (df : list NRow) :
  validate df = filter valid_sampleb df.
Proof.
  unfold validate, valid_sampleb. rewrite !filter_twice.
  apply filter_ext. intro r. now rewrite ?andb_assoc.
Qed.

(** C1.  The validation stage keeps exactly the rows that are valid
    samples (0 <= ldr <= 4095, motion equal to 0 or to 1, 0 <= led <= 255)
    and keeps them as they are: its result is the input filtered, so a
    surviving row is a row of the input, in the input's order, and a row
    that breaks a constraint is gone. *)
Theorem validation_invariant (df : list NRow) :
  validate df = filter valid_sampleb df /\
  (forall r : NRow, valid_sampleb r = true <-> valid_sample r) /\
  (forall r : NRow, In r (validate df) <-> In r df /\ valid_sample r) /\
  Forall valid_sample (validate df).
Proof.
  split; [apply validate_filter|].
  split; [apply valid_sampleb_iff|].
  assert (Hin : forall r, In r (validate df) <-> In r df /\ valid_sample r).
  { intro r. rewrite validate_filter, filter_In, valid_sampleb_iff.
    reflexivity. }
  split; [exact Hin|].
  apply Forall_forall. intros r Hr. now apply Hin in Hr.
Qed.

(** Rows that pass validation have their label in [0, 255]. *)
Lemma validate_label_in_range (df : list NRow) :
  Forall label_in_range (validate df).
Proof.
  apply Forall_forall. intros r Hr.
  rewrite validate_filter in Hr. apply filter_In in Hr as [_ Hr].
  unfold valid_sampleb in Hr. apply andb_true_iff in Hr as [_ Hr].
  exact Hr.
Qed.

(* ===================================================================== *)
(** ** The outlier stage *)
(* ===================================================================== *)

Lemma insert_sorted_length (x : pyfloat) (l : list pyfloat) :
  length (insert_sorted x l) = S (length l).
Proof.
  induction l as [|y l IH]; simpl; [reflexivity|].
  destruct (fle x y); simpl; [reflexivity | now rewrite IH].
Qed.

Lemma sort_values_length (l : list pyfloat) :
  length (sort_values l) = length l.
Proof.
  induction l as [|x l IH]; simpl; [reflexivity|].
  now rewrite insert_sorted_length, IH.
Qed.

Lemma insert_sorted_Forall (P : pyfloat -> Prop) (x : pyfloat)
  (l : list pyfloat) :
  P x -> Forall P l -> Forall P (insert_sorted x l).
Proof.
  intros Hx Hl. induction Hl as [|y l Hy Hl IH]; simpl.
  - now constructor.
  - destruct (fle x y); repeat constructor; assumption.
Qed.

Lemma sort_values_Forall (P : pyfloat -> Prop) (l : list pyfloat) :
  Forall P l -> Forall P (sort_values l).
Proof.
  induction 1 as [|x l Hx Hl IH]; simpl; [constructor|].
  now apply insert_sorted_Forall.
Qed.






(* ================================================================== *)
(** ** Binary64: rounding keeps magnitudes *)

Lemma pow2_pos (e : Z) : (0 < pow2 e)%Q.
Proof. unfold pow2. apply Qpower_0_lt. reflexivity. Qed.

Lemma pow2_le (a b : Z) : a <= b -> (pow2 a <= pow2 b)%Q.
Proof.
  intro H. unfold pow2. apply Qpower_le_compat_l; [exact H|]. discriminate.
Qed.

Lemma pow2_succ (a : Z) : (pow2 (a + 1) == 2 * pow2 a)%Q.
Proof.
  unfold pow2. rewrite Qpower_plus by discriminate.
  change (2 ^ 1)%Q with 2%Q. ring.
Qed.

Lemma pow2_plus (a b : Z) : (pow2 (a + b) == pow2 a * pow2 b)%Q.
Proof. unfold pow2. now rewrite Qpower_plus by discriminate. Qed.

Lemma pow2_Z (k : Z) : 0 <= k -> (pow2 k == inject_Z (2 ^ k))%Q.
Proof. intro H. unfold pow2. now rewrite Zpower_Qpower. Qed.

Lemma round_half_even_bounds (x : Q) :
  (0 <= x)%Q ->
  0 <= round_half_even x /\ (inject_Z (round_half_even x) <= x + (1 # 2))%Q.
Proof.
  intro Hx. unfold round_half_even.
  pose proof (Qfloor_le x) as Hlo. pose proof (Qlt_floor x) as Hhi.
  rewrite inject_Z_plus in Hhi. change (inject_Z 1) with 1%Q in Hhi.
  assert (Hf : 0 <= Qfloor x).
  { rewrite <- (Qfloor_Z 0). now apply Qfloor_resp_le. }
  destruct (Qcompare_spec (x - inject_Z (Qfloor x)) (1 # 2)) as [He|Hl|Hg].
  - destruct (Z.even (Qfloor x)).
    + split; [exact Hf | lra].
    + split; [lia|]. rewrite inject_Z_plus.
      change (inject_Z 1) with 1%Q. lra.
  - split; [exact Hf | lra].
  - split; [lia|]. rewrite inject_Z_plus. change (inject_Z 1) with 1%Q. lra.
Qed.

Lemma ilog2_le (q : Q) (K : Z) :
  (0 < q)%Q -> 0 <= K -> (q <= pow2 K)%Q -> ilog2 q <= K.
Proof.
  intros Hq HK Hle. unfold ilog2.
  assert (Hk : Z.log2 (Qnum q) - Z.log2 (Z.pos (Qden q)) <= K).
  { rewrite (pow2_Z K HK) in Hle. destruct q as [n d]. cbn [Qnum Qden].
    unfold Qle, inject_Z in Hle. cbn [Qnum Qden] in Hle.
    unfold Qlt in Hq. cbn [Qnum Qden] in Hq.
    rewrite Z.mul_1_r in Hle, Hq. rewrite Z.mul_0_l in Hq.
    rewrite Z.mul_comm in Hle.
    apply Z.log2_le_mono in Hle.
    rewrite Z.log2_mul_pow2 in Hle by lia. lia. }
  destruct (Qle_bool _ q); lia.
Qed.

Lemma nearest_pos_bounds (q : Q) (K : Z) :
  (0 < q)%Q -> 0 <= K -> (q <= pow2 K)%Q ->
  (0 <= nearest_pos q)%Q /\ (nearest_pos q <= pow2 (K + 1))%Q.
Proof.
  intros Hq HK Hle. unfold nearest_pos.
  set (e := Z.max (ilog2 q) (-1022)).
  assert (He : e <= K) by (pose proof (ilog2_le q K Hq HK Hle); lia).
  set (ulp := pow2 (e - 52)).
  assert (Hulp : (0 < ulp)%Q) by apply pow2_pos.
  assert (Hulp' : (ulp <= pow2 K)%Q) by (apply pow2_le; lia).
  assert (Hx : (0 <= q / ulp)%Q).
  { apply Qle_shift_div_l; [exact Hulp|]. lra. }
  destruct (round_half_even_bounds (q / ulp) Hx) as [Hm0 Hm1].
  set (m := round_half_even (q / ulp)) in *.
  rewrite Qred_correct.
  assert (Hm0' : (0 <= inject_Z m)%Q).
  { change 0%Q with (inject_Z 0). now rewrite <- Zle_Qle. }
  split.
  - apply Qmult_le_0_compat; [exact Hm0' | lra].
  - assert (H1 : (inject_Z m * ulp <= (q / ulp + (1 # 2)) * ulp)%Q).
    { apply Qmult_le_compat_r; [exact Hm1 | lra]. }
    assert (H2 : ((q / ulp + (1 # 2)) * ulp == q + (1 # 2) * ulp)%Q).
    { field. lra. }
    rewrite H2 in H1. rewrite pow2_succ. lra.
Qed.

Lemma round64_red_bounded (q : Q) (K : Z) :
  0 <= K <= 1000 -> (Qabs q <= pow2 K)%Q ->
  exists r : Q, round64_red q = Fin r /\ (Qabs r <= pow2 (K + 1))%Q.
Proof.
  intros [HK0 HK1] Hq. unfold round64_red.
  assert (Hbig : (pow2 (K + 1) < pow2 1024)%Q).
  { unfold pow2. apply Qpower_lt_compat_l; [lia | reflexivity]. }
  destruct (Qcompare_spec q 0) as [He|Hl|Hg].
  - exists 0%Q. split; [reflexivity|]. simpl. apply Qlt_le_weak, pow2_pos.
  - assert (Hq' : (- q <= pow2 K)%Q).
    { rewrite <- (Qabs_neg q) by lra. exact Hq. }
    destruct (nearest_pos_bounds (- q) K) as [H0 H1];
      [lra | exact HK0 | exact Hq' |].
    destruct (Qle_bool (pow2 1024) (nearest_pos (- q))) eqn:Hover.
    + apply Qle_bool_iff in Hover. lra.
    + exists (- nearest_pos (- q))%Q. split; [reflexivity|].
      rewrite Qabs_opp, Qabs_pos; assumption.
  - assert (Hq' : (q <= pow2 K)%Q).
    { rewrite <- (Qabs_pos q) by lra. exact Hq. }
    destruct (nearest_pos_bounds q K) as [H0 H1];
      [exact Hg | exact HK0 | exact Hq' |].
    destruct (Qle_bool (pow2 1024) (nearest_pos q)) eqn:Hover.
    + apply Qle_bool_iff in Hover. lra.
    + exists (nearest_pos q). split; [reflexivity|].
      rewrite Qabs_pos; assumption.
Qed.

(** Rounding a number of magnitude at most [2^K], [K <= 1000], gives a
    number of magnitude at most [2^(K+1)]: no overflow. *)
Lemma round64_bounded (q : Q) (K : Z) :
  0 <= K <= 1000 -> (Qabs q <= pow2 K)%Q -> bounded (K + 1) (round64 q).
Proof.
  intros HK Hq. unfold round64, bounded.
  apply round64_red_bounded; [exact HK|]. now rewrite Qred_correct.
Qed.



Lemma bounded_weaken (K K' : Z) (x : pyfloat) :
  K <= K' -> bounded K x -> bounded K' x.
Proof.
  intros HK (q & -> & Hq). exists q. split; [reflexivity|].
  eapply Qle_trans; [exact Hq|]. now apply pow2_le.
Qed.

Lemma f64_add_bounded (K : Z) (x y : pyfloat) :
  0 <= K <= 999 -> bounded K x -> bounded K y -> bounded (K + 2) (f64_add x y).
Proof.
  intros HK (a & -> & Ha) (b & -> & Hb).
  unfold f64_add. cbn [fadd rnd].
  replace (K + 2) with (K + 1 + 1) by lia.
  apply round64_bounded; [lia|].
  pose proof (Qabs_triangle a b) as Ht. rewrite pow2_succ. lra.
Qed.

Lemma f64_sub_bounded (K : Z) (x y : pyfloat) :
  0 <= K <= 999 -> bounded K x -> bounded K y -> bounded (K + 2) (f64_sub x y).
Proof.
  intros HK (a & -> & Ha) (b & -> & Hb).
  unfold f64_sub, fsub. cbn [fadd fopp rnd].
  replace (K + 2) with (K + 1 + 1) by lia.
  apply round64_bounded; [lia|].
  pose proof (Qabs_triangle a (- b)) as Ht. rewrite Qabs_opp in Ht.
  rewrite pow2_succ. lra.
Qed.

Lemma f64_mul_bounded (K J : Z) (x y : pyfloat) :
  0 <= K -> 0 <= J -> K + J <= 1000 ->
  bounded K x -> bounded J y -> bounded (K + J + 1) (f64_mul x y).
Proof.
  intros HK HJ HKJ (a & -> & Ha) (b & -> & Hb).
  unfold f64_mul. cbn [fmul rnd].
  apply round64_bounded; [lia|].
  rewrite Qabs_Qmult, pow2_plus.
  pose proof (Qabs_nonneg a). pose proof (Qabs_nonneg b).
  apply Qle_trans with (Qabs a * pow2 J)%Q.
  - rewrite !(Qmult_comm (Qabs a)). now apply Qmult_le_compat_r.
  - apply Qmult_le_compat_r; [exact Ha|]. apply Qlt_le_weak, pow2_pos.
Qed.

Lemma bounded_Fin (K : Z) (q : Q) :
  (Qabs q <= pow2 K)%Q -> bounded K (Fin q).
Proof. intro H. now exists q. Qed.

Lemma in_0_255_bounded (x : pyfloat) : in_0_255 x = true -> bounded 8 x.
Proof.
  unfold in_0_255. intro H. apply between_iff in H.
  destruct H as (q & -> & H0 & H1).
  change (inject_Z 0) with 0%Q in H0.
  apply bounded_Fin. rewrite Qabs_pos by exact H0.
  eapply Qle_trans; [exact H1|]. vm_compute. discriminate.
Qed.

Lemma nth_Forall {A : Type} (P : A -> Prop) (s : list A) (i : nat) (d : A) :
  Forall P s -> (i < length s)%nat -> P (nth i s d).
Proof.
  intros Hs Hi. rewrite Forall_forall in Hs. apply Hs. now apply nth_In.
Qed.

(** The interpolation of line 103 between two labels of [0, 255] with a
    weight of [0, 1] does not overflow. *)
Lemma lerp_bounded (a b : pyfloat) (t : Q) :
  bounded 8 a -> bounded 8 b -> (0 <= t <= 1)%Q ->
  bounded 24 (lerp a b (Fin t)).
Proof.
  intros Ha Hb [Ht0 Ht1].
  assert (Hd : bounded 10 (f64_sub b a)) by (apply (f64_sub_bounded 8); [lia|assumption..]).
  assert (Ht : bounded 0 (Fin t)).
  { apply bounded_Fin. rewrite Qabs_pos by exact Ht0. exact Ht1. }
  assert (H1 : bounded 0 (of_Z 1)).
  { apply bounded_Fin. vm_compute. discriminate. }
  unfold lerp. destruct (fle (Fin (1 # 2)) (Fin t)).
  - assert (Hs : bounded 2 (f64_sub (of_Z 1) (Fin t)))
      by (apply (f64_sub_bounded 0); [lia|assumption..]).
    assert (Hm : bounded 13
                   (f64_mul (f64_sub b a) (f64_sub (of_Z 1) (Fin t))))
      by (apply (f64_mul_bounded 10 2); [lia..|assumption|assumption]).
    apply (bounded_weaken 15); [lia|].
    apply (f64_sub_bounded 13); [lia| |exact Hm].
    now apply (bounded_weaken 8); [lia|].
  - assert (Hm : bounded 11 (f64_mul (f64_sub b a) (Fin t)))
      by (apply (f64_mul_bounded 10 0); [lia..|assumption|assumption]).
    apply (bounded_weaken 13); [lia|].
    apply (f64_add_bounded 11); [lia| |exact Hm].
    now apply (bounded_weaken 8); [lia|].
Qed.

(** The virtual index [(n - 1) * q] of a quantile [0 <= q < 1]. *)
Lemma virtual_index (n1 : Z) (q : Q) :
  0 <= n1 -> (0 <= q)%Q -> (q < 1)%Q ->
  let h := (inject_Z n1 * q)%Q in
  (0 <= h)%Q /\ (0 < n1 -> (h < inject_Z n1)%Q) /\ (n1 = 0 -> (h == 0)%Q).
Proof.
  intros Hn Hq0 Hq1 h. unfold h.
  assert (Hn' : (0 <= inject_Z n1)%Q).
  { change 0%Q with (inject_Z 0). now rewrite <- Zle_Qle. }
  split; [|split].
  - now apply Qmult_le_0_compat.
  - intro Hpos.
    assert (Hn2 : (0 < inject_Z n1)%Q).
    { change 0%Q with (inject_Z 0). now rewrite <- Zlt_Qlt. }
    nra.
  - intros ->. change (inject_Z 0) with 0%Q. ring.
Qed.

(** The two branches of [quantile]: a column of one element gives that
    element's interpolation with itself, a longer one interpolates between
    two neighbours of the sorted column. *)
Lemma quantile_unfold (q : Q) (col : list pyfloat) :
  (0 <= q)%Q -> (q < 1)%Q -> col <> [] ->
  let s := sort_values col in
  let n1 := Z.of_nat (length col) - 1 in
  let h := (inject_Z n1 * q)%Q in
  (n1 = 0 /\ (h == 0)%Q /\
   quantile q col = lerp (nth 0 s NaN) (nth 0 s NaN) (Fin (h + 1))) \/
  (0 <= Qfloor h /\ Qfloor h + 1 <= n1 /\
   quantile q col =
   lerp (nth (Z.to_nat (Qfloor h)) s NaN)
        (nth (Z.to_nat (Qfloor h + 1)) s NaN)
        (Fin (h - inject_Z (Qfloor h)))).
Proof.
  intros Hq0 Hq1 Hne s n1 h.
  assert (Hn1 : 0 <= n1) by (unfold n1; destruct col; [congruence|simpl length; lia]).
  destruct (virtual_index n1 q Hn1 Hq0 Hq1) as (Hh0 & Hh1 & Hh2).
  fold h in Hh0, Hh1, Hh2.
  unfold quantile. destruct col as [|x0 col']; [congruence|].
  fold s. fold n1. fold h.
  destruct (Qle_bool (inject_Z n1) h) eqn:Hb.
  - left. apply Qle_bool_iff in Hb.
    assert (Hz : n1 = 0).
    { destruct (Z.eq_dec n1 0) as [|Hnz]; [assumption|].
      exfalso. assert (Hpos : 0 < n1) by lia. specialize (Hh1 Hpos). lra. }
    split; [exact Hz|]. split; [now apply Hh2|].
    rewrite Hz. reflexivity.
  - right.
    assert (Hlt : (h < inject_Z n1)%Q).
    { apply Qnot_le_lt. intro Hc. apply Qle_bool_iff in Hc. congruence. }
    assert (Hf0 : 0 <= Qfloor h).
    { rewrite <- (Qfloor_Z 0). now apply Qfloor_resp_le. }
    assert (Hf1 : Qfloor h < n1).
    { pose proof (Qfloor_le h) as Hfl.
      rewrite Zlt_Qlt. lra. }
    split; [exact Hf0|]. split; [lia|]. reflexivity.
Qed.

(** A quantile of a non-empty column of labels of [0, 255] is a number:
    the interpolation does not overflow. *)
Lemma quantile_bounded (q : Q) (col : list pyfloat) :
  (0 <= q)%Q -> (q < 1)%Q -> col <> [] ->
  Forall (bounded 8) col -> bounded 24 (quantile q col).
Proof.
  intros Hq0 Hq1 Hne Hcol.
  assert (Hs : Forall (bounded 8) (sort_values col))
    by now apply sort_values_Forall.
  pose proof (sort_values_length col) as Hlen.
  destruct (quantile_unfold q col Hq0 Hq1 Hne)
    as [(Hz & Hh & ->) | (Hf0 & Hf1 & ->)].
  - assert (H0 : bounded 8 (nth 0 (sort_values col) NaN)).
    { apply nth_Forall; [exact Hs|]. rewrite Hlen. lia. }
    apply lerp_bounded; [exact H0 | exact H0 | lra].
  - set (h := (inject_Z (Z.of_nat (length col) - 1) * q)%Q) in *.
    pose proof (Qfloor_le h) as Hfl. pose proof (Qlt_floor h) as Hfu.
    rewrite inject_Z_plus in Hfu. change (inject_Z 1) with 1%Q in Hfu.
    apply lerp_bounded; [| |lra].
    + apply nth_Forall; [exact Hs|]. rewrite Hlen. lia.
    + apply nth_Forall; [exact Hs|]. rewrite Hlen. lia.
Qed.

(** With labels of [0, 255] the bounds of lines 103 to 105 are numbers. *)
Lemma iqr_bounds_finite (df : list NRow) :
  df <> [] -> Forall label_in_range df ->
  exists lo hi : Q, iqr_bounds df = mkBounds (Fin lo) (Fin hi).
Proof.
  intros Hne Hran.
  assert (Hcol : Forall (bounded 8) (map led df)).
  { apply Forall_map. eapply Forall_impl; [|exact Hran].
    intros r Hr. now apply in_0_255_bounded. }
  assert (Hne' : map led df <> []) by (destruct df; simpl; congruence).
  assert (H1 : bounded 24 (quantile (1 # 4) (map led df)))
    by (apply quantile_bounded; [discriminate|reflexivity|assumption..]).
  assert (H3 : bounded 24 (quantile (3 # 4) (map led df)))
    by (apply quantile_bounded; [discriminate|reflexivity|assumption..]).
  assert (HI : bounded 26 (f64_sub (quantile (3 # 4) (map led df))
                                   (quantile (1 # 4) (map led df))))
    by (apply (f64_sub_bounded 24); [lia|assumption..]).
  assert (Hc : bounded 1 (Fin (3 # 2))).
  { apply bounded_Fin. vm_compute. discriminate. }
  assert (HM : bounded 28
                 (f64_mul (Fin (3 # 2))
                    (f64_sub (quantile (3 # 4) (map led df))
                             (quantile (1 # 4) (map led df)))))
    by (apply (f64_mul_bounded 1 26); [lia..|assumption|assumption]).
  assert (Hlo : bounded 30
                  (f64_sub (quantile (1 # 4) (map led df))
                     (f64_mul (Fin (3 # 2))
                        (f64_sub (quantile (3 # 4) (map led df))
                                 (quantile (1 # 4) (map led df)))))).
  { apply (f64_sub_bounded 28); [lia| |exact HM].
    now apply (bounded_weaken 24); [lia|]. }
  assert (Hhi : bounded 30
                  (f64_add (quantile (3 # 4) (map led df))
                     (f64_mul (Fin (3 # 2))
                        (f64_sub (quantile (3 # 4) (map led df))
                                 (quantile (1 # 4) (map led df)))))).
  { apply (f64_add_bounded 28); [lia| |exact HM].
    now apply (bounded_weaken 24); [lia|]. }
  destruct Hlo as (lo & Hlo & _), Hhi as (hi & Hhi & _).
  exists lo, hi. unfold iqr_bounds. now rewrite Hlo, Hhi.
Qed.



(** The mask of line 109 is the complement of the mask of line 107 on
    numbers (with a [NaN] on either side both masks are false). *)
Lemma within_not_outlier (lo hi : Q) (r : NRow) :
  finite_led r ->
  within (mkBounds (Fin lo) (Fin hi)) r =
  negb (is_outlier (mkBounds (Fin lo) (Fin hi)) r).
Proof.
  unfold finite_led, within, is_outlier. simpl low. simpl high.
  destruct (led r) as [| |d|]; try discriminate. intros _.
  rewrite !flt_negb_fle, negb_orb, !negb_involutive. reflexivity.
Qed.

Lemma filter_complement_length {A : Type} (p : A -> bool) (l : list A) :
  (length (filter (fun x => negb (p x)) l) + length (filter p l)
   = length l)%nat.
Proof.
  induction l as [|x l IH]; simpl; [reflexivity|].
  destruct (p x); simpl; lia.
Qed.

(** The float comparison of line 108 against a tenth of the row count,
    in whole numbers. *)
Lemma tenth_guard (c n : nat) :
  flt (of_nat c) (fmul (of_nat n) (Fin (1 # 10))) = true <->
  (10 * c < n)%nat.
Proof.
  unfold of_nat, of_Z. simpl fmul. rewrite flt_Fin.
  unfold Qlt, Qmult, inject_Z. simpl Qnum. simpl Qden. lia.
Qed.

Lemma outlier_guard_iff (df : list NRow) :
  outlier_guard df = true <->
  outliers df <> [] /\ (10 * length (outliers df) < length df)%nat.
Proof.
  unfold outlier_guard. rewrite andb_true_iff, tenth_guard, Nat.ltb_lt.
  destruct (outliers df); simpl; split; intros [H1 H2]; split;
    try lia; congruence.
Qed.

(** Python rounds the product of line 108 to a double; for every frame
    of up to 400 rows the rounded comparison decides as the exact one. *)
Lemma binary64_guard_agrees : Binary64.agree_upto 400 = true.
Proof. vm_compute. reflexivity. Qed.

Lemma down_from_In (k : nat) (z : Z) :
  In z (Binary64.down_from k) <-> 0 <= z <= Z.of_nat k.
Proof.
  induction k as [|k IH].
  - simpl. lia.
  - change (Binary64.down_from (S k))
      with (Z.of_nat (S k) :: Binary64.down_from k).
    simpl In. rewrite IH. lia.
Qed.

Lemma agree_upto_model (N c n : nat) :
  Binary64.agree_upto N = true -> (c <= n)%nat -> (n <= N)%nat ->
  Binary64.guard (Z.of_nat c) (Z.of_nat n)
  = flt (of_nat c) (fmul (of_nat n) (Fin (1 # 10))).
Proof.
  unfold Binary64.agree_upto. intros H Hc Hn.
  rewrite forallb_forall in H.
  specialize (H (Z.of_nat n)). rewrite down_from_In in H.
  specialize (H ltac:(lia)). rewrite forallb_forall in H.
  specialize (H (Z.of_nat c)). rewrite down_from_In, Nat2Z.id in H.
  specialize (H ltac:(lia)). apply Bool.eqb_prop in H. rewrite H.
  destruct (flt (of_nat c) (fmul (of_nat n) (Fin (1 # 10)))) eqn:Hm.
  - apply tenth_guard in Hm. apply Z.ltb_lt. lia.
  - apply Z.ltb_ge. destruct (Nat.lt_ge_cases (10 * c) n) as [Hlt|Hge];
      [|lia].
    apply tenth_guard in Hlt. congruence.
Qed.

(** So the exact comparison of [outlier_guard] is the one Python makes on
    such frames. *)
Lemma binary64_guard_model (c n : nat) :
  (c <= n)%nat -> (n <= 400)%nat ->
  Binary64.guard (Z.of_nat c) (Z.of_nat n)
  = flt (of_nat c) (fmul (of_nat n) (Fin (1 # 10))).
Proof. apply agree_upto_model. exact binary64_guard_agrees. Qed.

Lemma outliers_nonempty_frame (df : list NRow) :
  outliers df <> [] -> df <> [].
Proof. intros H ->. now apply H. Qed.


Lemma label_in_range_finite (r : NRow) : label_in_range r -> finite_led r.
Proof.
  unfold label_in_range, finite_led. intro H.
  apply in_0_255_bounded in H. destruct H as (q & -> & _). reflexivity.
Qed.

Lemma remove_outliers_removing (df : list NRow) :
  Forall label_in_range df -> outlier_guard df = true ->
  remove_outliers df
  = filter (fun r => negb (is_outlier (iqr_bounds df) r)) df.
Proof.
  intros Hran Hg. unfold remove_outliers. rewrite Hg.
  apply outlier_guard_iff in Hg as [Hne _].
  apply outliers_nonempty_frame in Hne.
  destruct (iqr_bounds_finite df Hne Hran) as (lo & hi & ->).
  apply filter_ext_in. intros r Hr. apply within_not_outlier.
  apply label_in_range_finite.
  rewrite Forall_forall in Hran. now apply Hran.
Qed.

Lemma outlier_stage_run `{E : Externals} (df : list NRow) (w : World) :
  outlier_stage df w =
  (Ok (remove_outliers df),
   emit w [if outlier_guard df
           then MsgRemovedOutliers (length (outliers df))
           else MsgNoOutliers]).
Proof.
  unfold outlier_stage, remove_outliers.
  destruct (outlier_guard df); reflexivity.
Qed.



(** pandas' own examples of the interpolation: the lower quartile of
    1, 2, 3, 4 is 1.75 and that of 5, 1, 4, 2, 3 is 2; and the quartiles
    of 0.1, 0.2, 0.3 with the rounding of the machine:
    0.15000000000000002 and 0.25. *)
Example quantile_examples :
  quantile (1 # 4) (map of_Z [1; 2; 3; 4]) = Fin (7 # 4) /\
  quantile (1 # 4) (map of_Z [5; 1; 4; 2; 3]) = of_Z 2 /\
  quantile (3 # 4) (map of_Z [5; 1; 4; 2; 3]) = of_Z 4 /\
  quantile (1 # 4) OutlierDemo.decimals = OutlierDemo.decimals_Q1 /\
  quantile (3 # 4) OutlierDemo.decimals = OutlierDemo.decimals_Q3.
Proof. repeat split; vm_compute; reflexivity. Qed.

(** [round64] and the machine's arithmetic agree on the samples. *)
Example round64_matches_machine :
  forallb Machine.machine_agrees Machine.machine_samples = true.
Proof. vm_compute. reflexivity. Qed.

(** Lines 103 to 105 on [OutlierDemo.edge]: the quartiles are 100 and
    100.2, and the bounds are those the machine computes from them. *)
Example edge_bounds_match_machine :
  quantile (1 # 4) (map led OutlierDemo.edge) = of_prim OutlierDemo.d100 /\
  quantile (3 # 4) (map led OutlierDemo.edge)
  = of_prim OutlierDemo.d100_2 /\
  iqr_bounds OutlierDemo.edge
  = mkBounds
      (of_prim (fst (Machine.machine_bounds OutlierDemo.d100
                       OutlierDemo.d100_2)))
      (of_prim (snd (Machine.machine_bounds OutlierDemo.d100
                       OutlierDemo.d100_2))).
Proof. repeat split; vm_compute; reflexivity. Qed.

(** The rounding decides on [OutlierDemo.edge]: the first label is the
    rounded lower bound, so it is no outlier, although it lies below the
    unrounded value of [Q1 - 1.5 * (Q3 - Q1)]. *)
Example edge_rounding_decides :
  let x := of_prim OutlierDemo.d99_7 in
  let Q1 := quantile (1 # 4) (map led OutlierDemo.edge) in
  let Q3 := quantile (3 # 4) (map led OutlierDemo.edge) in
  low (iqr_bounds OutlierDemo.edge) = x /\
  flt x (fsub Q1 (fmul (Fin (3 # 2)) (fsub Q3 Q1))) = true /\
  outliers OutlierDemo.edge = [].
Proof. repeat split; vm_compute; reflexivity. Qed.




(* ===================================================================== *)
(** ** Running the script *)
(* ===================================================================== *)

Section TrainingFacts.
Context `{E : Externals}.
Variable M : Metrics.

Lemma emit_emit (w : World) (a b : list Msg) :
  emit (emit w a) b = emit w (a ++ b).
Proof. unfold emit. simpl. now rewrite app_assoc. Qed.

Lemma emit_nil (w : World) : emit w [] = w.
Proof. destruct w. unfold emit. simpl. now rewrite app_nil_r. Qed.

Lemma bind_ok {A B : Type} (m : Script A) (k : A -> Script B)
  (w w' : World) (a : A) :
  m w = (Ok a, w') -> bind m k w = k a w'.
Proof. unfold bind. now intros ->. Qed.

Lemma bind_exit {A B : Type} (m : Script A) (k : A -> Script B)
  (w w' : World) (c : Z) :
  m w = (Exit c, w') -> bind m k w = (Exit c, w').
Proof. unfold bind. now intros ->. Qed.

Lemma print_run (m : Msg) (w : World) : print m w = (Ok tt, emit w [m]).
Proof. reflexivity. Qed.

Ltac script_step :=
  unfold emit; cbn; rewrite <- ?app_assoc; cbn; try reflexivity.

Lemma load_data_run (w : World) :
  load_data w =
  match fs w CSV_PATH with
  | Some (Csv df) => (Ok df, emit w [MsgLoaded (frame_len df)])
  | None => (Exit 1, emit w [MsgCsvNotFound; MsgRunExportFirst])
  | Some _ => (Exit 1, emit w [MsgCsvError])
  end.
Proof.
  unfold load_data. destruct (fs w CSV_PATH) as [[df|m|]|]; script_step.
Qed.

Lemma drop_timestamp_run (df : Frame) (w : World) :
  drop_timestamp df w = (Ok (without_timestamp df), emit w (timestamp_lines df)).
Proof.
  unfold drop_timestamp, without_timestamp, timestamp_lines.
  destruct (has_col "ts" df || has_col "Unnamed: 0" df).
  - script_step.
  - now rewrite emit_nil.
Qed.

Lemma schema_guard_run (df : Frame) (w : World) :
  schema_guard df w =
  match missing_cols df with
  | [] => (Ok tt, w)
  | cols => (Exit 1, emit w [MsgMissingColumns cols])
  end.
Proof.
  unfold schema_guard. destruct (missing_cols df); script_step.
Qed.

Lemma drop_missing_run (df : list (Row cell)) (w : World) :
  drop_missing df w = (Ok (without_missing df), emit w (missing_lines df)).
Proof.
  unfold drop_missing, without_missing, missing_lines.
  destruct (0 <? count_missing df)%nat.
  - script_step.
  - now rewrite emit_nil.
Qed.

Lemma remove_duplicates_run (df : list NRow) (w : World) :
  remove_duplicates df w
  = (Ok (without_duplicates df), emit w (duplicate_lines df)).
Proof.
  unfold remove_duplicates, without_duplicates, duplicate_lines.
  destruct (0 <? count_duplicates df)%nat.
  - script_step.
  - now rewrite emit_nil.
Qed.

(** Lines 18 to 89 end in one of four ways. *)
Lemma clean_and_validate_run (w : World) :
  clean_and_validate w =
  match fs w CSV_PATH with
  | None => (Exit 1, emit w [MsgCsvNotFound; MsgRunExportFirst])
  | Some (Csv df) =>
      match missing_cols (without_timestamp df) with
      | [] => (Ok (validated df), emit w (cleaning_lines df))
      | cols =>
          (Exit 1,
           emit w (MsgLoaded (frame_len df) :: timestamp_lines df
                     ++ [MsgMissingColumns cols]))
      end
  | Some _ => (Exit 1, emit w [MsgCsvError])
  end.
Proof.
  unfold clean_and_validate.
  pose proof (load_data_run w) as Hload.
  destruct (fs w CSV_PATH) as [[df|m|]|];
    try (now rewrite (bind_exit _ _ _ _ _ Hload)).
  rewrite (bind_ok _ _ _ _ _ Hload).
  rewrite (bind_ok _ _ _ _ _ (drop_timestamp_run df _)).
  rewrite emit_emit.
  pose proof (schema_guard_run (without_timestamp df)
                (emit w ([MsgLoaded (frame_len df)] ++ timestamp_lines df)))
    as Hguard.
  destruct (missing_cols (without_timestamp df)) as [|c cols].
  - rewrite (bind_ok _ _ _ _ _ Hguard).
    rewrite (bind_ok _ _ _ _ _ (drop_missing_run _ _)).
    rewrite (bind_ok _ _ _ _ _ (remove_duplicates_run _ _)).
    rewrite !emit_emit. unfold ret, validated, cleaned, cleaning_lines.
    simpl app. rewrite <- ?app_assoc. reflexivity.
  - rewrite (bind_exit _ _ _ _ _ Hguard).
    rewrite emit_emit. simpl app. rewrite <- ?app_assoc. reflexivity.
Qed.

Lemma check_enough_run (df : list NRow) (w : World) :
  check_enough df w =
  if (length df <? 50)%nat then
    (Exit 1, emit w [MsgOnlyValid (length df); MsgCollectMore])
  else (Ok tt, emit w [MsgCleanDataset (length df)]).
Proof.
  unfold check_enough. destruct (length df <? 50)%nat; script_step.
Qed.

Lemma sample_predictions_run (model : Model) (l : list (Z * Z * string))
  (w : World) :
  sample_predictions model l w =
  (match snd (sample_lines model l) with
   | None => Ok tt
   | Some e => Uncaught e
   end, emit w (fst (sample_lines model l))).
Proof.
  revert w. induction l as [|[[l_ m_] desc] rest IH]; intro w.
  - simpl. now rewrite emit_nil.
  - simpl.
    destruct (py_int (np_clip (forest_predict model (of_Z l_) (of_Z m_))))
      as [e|pred]; simpl.
    + unfold raise. now rewrite emit_nil.
    + rewrite (bind_ok _ _ _ _ _ (print_run _ _)), IH, emit_emit.
      reflexivity.
Qed.

Lemma evaluate_run (model : Model) (train test : list NRow) (w : World) :
  evaluate M model train test w
  = (Ok tt, emit w (eval_lines M model train test)).
Proof.
  unfold evaluate, eval_lines.
  rewrite 2!(bind_ok _ _ _ _ _ (print_run _ _)), print_run, !emit_emit.
  reflexivity.
Qed.

Lemma save_model_run (model : Model) (w : World) :
  save_model model w =
  if writable w then
    (Ok tt,
     mkWorld (write_file MODEL_PATH (Pickle model) (fs w)) true
             (stdout w ++ [MsgModelSaved]))
  else (Exit 1, emit w [MsgSaveError]).
Proof.
  unfold save_model. destruct (writable w) eqn:Hw; script_step.
Qed.

End TrainingFacts.

Section TrainingRun.
Context `{E : Externals}.
Variable M : Metrics.

Lemma split_fit_save_run (df : list NRow) (w : World) :
  split_fit_save M df w = split_fit_save_outcome M df w.
Proof.
  unfold split_fit_save, split_fit_save_outcome.
  rewrite 2!(bind_ok _ _ _ _ _ (print_run _ _)).
  rewrite (bind_ok _ _ _ _ _ (evaluate_run M _ _ _ _)).
  rewrite !emit_emit. simpl app.
  pose proof (save_model_run (fit (fst (train_test_split df)))
    (emit w (MsgSplit (length (fst (train_test_split df)))
                      (length (snd (train_test_split df)))
             :: MsgTrainingComplete
             :: eval_lines M (fit (fst (train_test_split df)))
                  (fst (train_test_split df)) (snd (train_test_split df)))))
    as Hsave.
  simpl writable in Hsave.
  destruct (writable w) eqn:Hw.
  - rewrite (bind_ok _ _ _ _ _ Hsave).
    unfold after_save, fitted.
    pose proof (sample_predictions_run
                  (fit (fst (train_test_split df))) samples) as Hsamples.
    destruct (snd (sample_lines (fit (fst (train_test_split df))) samples))
      as [e|] eqn:Hres.
    + unfold bind at 1. rewrite Hsamples. unfold emit, fit_lines.
      simpl. rewrite <- !app_assoc. reflexivity.
    + rewrite (bind_ok _ _ _ _ _ (Hsamples _)), print_run.
      unfold emit, fit_lines. simpl. rewrite <- !app_assoc. reflexivity.
  - rewrite (bind_exit _ _ _ _ _ Hsave), emit_emit.
    unfold fit_lines. simpl app. reflexivity.
Qed.

(** The script does what [train_model_outcome] says, in every world. *)
Lemma train_model_run (w : World) :
  train_model M w = train_model_outcome M w.
Proof.
  unfold train_model, train_model_outcome.
  pose proof (clean_and_validate_run w) as Hclean.
  destruct (fs w CSV_PATH) as [[df|m|]|];
    try (now rewrite (bind_exit _ _ _ _ _ Hclean)).
  destruct (missing_cols (without_timestamp df)) as [|c cols];
    [|now rewrite (bind_exit _ _ _ _ _ Hclean)].
  rewrite (bind_ok _ _ _ _ _ Hclean).
  pose proof (check_enough_run (validated df) (emit w (cleaning_lines df)))
    as Hcheck.
  cbv zeta.
  destruct (length (validated df) <? 50)%nat.
  - rewrite (bind_exit _ _ _ _ _ Hcheck), emit_emit. reflexivity.
  - rewrite (bind_ok _ _ _ _ _ Hcheck).
    rewrite (bind_ok _ _ _ _ _ (outlier_stage_run _ _)).
    rewrite split_fit_save_run, !emit_emit. simpl app.
    rewrite <- ?app_assoc. reflexivity.
Qed.

End TrainingRun.

(* ===================================================================== *)
(** ** The fatal checks of the training script *)
(* ===================================================================== *)

Section TrainingClaims.
Context `{E : Externals}.

Lemma timestamp_lines_early (df : Frame) :
  Forall (fun m => is_fit_msg m = false) (timestamp_lines df).
Proof.
  unfold timestamp_lines.
  destruct (has_col "ts" df || has_col "Unnamed: 0" df);
    repeat constructor.
Qed.

Lemma missing_lines_early (df : list (Row cell)) :
  Forall (fun m => is_fit_msg m = false) (missing_lines df).
Proof.
  unfold missing_lines.
  destruct (0 <? count_missing df)%nat; repeat constructor.
Qed.

Lemma duplicate_lines_early (df : list NRow) :
  Forall (fun m => is_fit_msg m = false) (duplicate_lines df).
Proof.
  unfold duplicate_lines.
  destruct (0 <? count_duplicates df)%nat; repeat constructor.
Qed.

(** Nothing the cleaning stage prints is a line of the later stages. *)
Lemma cleaning_lines_early (df : Frame) :
  Forall (fun m => is_fit_msg m = false) (cleaning_lines df).
Proof.
  unfold cleaning_lines. constructor; [reflexivity|].
  repeat (apply Forall_app; split);
    auto using timestamp_lines_early, missing_lines_early,
      duplicate_lines_early.
Qed.

Lemma after_save_never_exits (model : Model) (c : Z) :
  fst (after_save model) <> Exit c.
Proof.
  unfold after_save.
  destruct (snd (sample_lines model samples)); discriminate.
Qed.

(** C2.  With the table read and its schema complete, the run is decided
    by the number [n] of rows left after validation.  If [n < 50] the
    script exits with status 1 right after printing the two diagnostic
    lines, the disk is as it was, and no line of the split, fit,
    evaluation or save stages has been printed.  If [50 <= n] it prints
    the clean-dataset line and goes on through the outlier stage to the
    split and the fit. *)
Theorem row_count_gate (M : Metrics) (w : World) (df : Frame) :
  fs w CSV_PATH = Some (Csv df) ->
  missing_cols (without_timestamp df) = [] ->
  let n := length (validated df) in
  let kept := remove_outliers (validated df) in
  let run := train_model M w in
  ((n < 50)%nat ->
   fst run = Exit 1 /\
   snd run
   = emit w (cleaning_lines df ++ [MsgOnlyValid n; MsgCollectMore]) /\
   fs (snd run) = fs w /\
   (forall m : Msg,
       is_fit_msg m = true -> In m (stdout (snd run)) -> In m (stdout w)))
  /\
  ((50 <= n)%nat ->
   exists later : list Msg,
     stdout (snd run)
     = stdout w ++ cleaning_lines df
         ++ MsgCleanDataset n :: outlier_line (validated df)
         :: MsgSplit (length (fst (train_test_split kept)))
                     (length (snd (train_test_split kept)))
         :: MsgTrainingComplete :: later).
Proof.
  intros Hfile Hschema n kept run.
  subst run. rewrite train_model_run. unfold train_model_outcome.
  rewrite Hfile, Hschema. cbv zeta. fold n.
  split; intro Hn.
  - apply Nat.ltb_lt in Hn. rewrite Hn.
    repeat split.
    intros m Hm Hin. cbn [snd stdout emit] in Hin.
    apply in_app_or in Hin as [Hin|Hin]; [exact Hin|].
    exfalso. apply in_app_or in Hin as [Hin|Hin].
    + pose proof (cleaning_lines_early df) as Hearly.
      rewrite Forall_forall in Hearly. apply Hearly in Hin. congruence.
    + destruct Hin as [<-|[<-|[]]]; discriminate.
  - apply Nat.ltb_ge in Hn. rewrite Hn.
    unfold split_fit_save_outcome. cbn [writable emit].
    set (lines := cleaning_lines df).
    destruct (writable w); cbn [snd stdout emit fs writable];
      unfold fit_lines; fold kept; eexists; rewrite <- !app_assoc;
      cbn [app]; reflexivity.
Qed.

End TrainingClaims.

(** A table with 49 valid rows is refused, one with 50 is trained on. *)
Lemma row_count_gate_witness :
  fst (train_model Demo.metrics (Demo.world 49 true)) = Exit 1 /\
  stdout (snd (train_model Demo.metrics (Demo.world 49 true)))
  = [MsgLoaded 52; MsgRemovedTimestamp; MsgOnlyValid 49; MsgCollectMore] /\
  In MsgTrainingComplete
     (stdout (snd (train_model Demo.metrics (Demo.world 50 true)))).
Proof.
  destruct (row_count_gate (E := Demo.libs) Demo.metrics
              (Demo.world 49 true) (Demo.history 49))
    as [Habort _]; [reflexivity | vm_compute; reflexivity |].
  destruct (row_count_gate (E := Demo.libs) Demo.metrics
              (Demo.world 50 true) (Demo.history 50))
    as [_ Hgo]; [reflexivity | vm_compute; reflexivity |].
  destruct Habort as (Hexit & Hworld & _); [vm_compute; lia|].
  destruct Hgo as [later Hout]; [vm_compute; lia|].
  split; [exact Hexit|].
  split; [rewrite Hworld; vm_compute; reflexivity|].
  rewrite Hout. do 2 (apply in_or_app; right).
  cbn [In]. auto.
Defined.

Section LoaderAndSaving.
Context `{E : Externals}.

Lemma has_col_drop_columns (name : string) (names : list string)
  (df : Frame) :
  has_col name (drop_columns names df)
  = has_col name df && negb (existsb (String.eqb name) names).
Proof.
  induction df as [|c df IH]; simpl; [reflexivity|].
  destruct (String.eqb_spec name (fst c)) as [->|Hne]; simpl.
  - destruct (existsb (String.eqb (fst c)) names) eqn:Hin; simpl.
    + rewrite IH. apply andb_false_r.
    + now rewrite String.eqb_refl.
  - destruct (existsb (String.eqb (fst c)) names); simpl; [exact IH|].
    apply String.eqb_neq in Hne. now rewrite Hne.
Qed.

Lemma existsb_present (name : string) (df : Frame) (names : list string) :
  has_col name df = true ->
  existsb (String.eqb name) (filter (fun c => has_col c df) names)
  = existsb (String.eqb name) names.
Proof.
  intro Hhas. induction names as [|c names IH]; simpl; [reflexivity|].
  destruct (String.eqb_spec name c) as [<-|Hne].
  - rewrite Hhas. simpl. now rewrite String.eqb_refl.
  - destruct (has_col c df); simpl; [|exact IH].
    apply String.eqb_neq in Hne. now rewrite Hne.
Qed.

(** Lines 41 to 43 remove the columns named [ts] and [Unnamed: 0] and
    no other. *)
Lemma has_col_without_timestamp (name : string) (df : Frame) :
  has_col name (without_timestamp df)
  = has_col name df
    && negb (existsb (String.eqb name) ["ts"; "Unnamed: 0"]%string).
Proof.
  unfold without_timestamp.
  destruct (has_col "ts" df || has_col "Unnamed: 0" df) eqn:Hany.
  - rewrite has_col_drop_columns.
    destruct (has_col name df) eqn:Hhas; [|reflexivity].
    now rewrite existsb_present.
  - apply orb_false_iff in Hany as [Hts Hun]. simpl existsb.
    destruct (String.eqb_spec name "ts") as [->|_];
      [rewrite Hts; reflexivity|].
    destruct (String.eqb_spec name "Unnamed: 0") as [->|_];
      [rewrite Hun; reflexivity|].
    simpl. now rewrite andb_true_r.
Qed.

Lemma missing_cols_In (c : string) (df : Frame) :
  In c (missing_cols df) <-> In c required_cols /\ has_col c df = false.
Proof.
  unfold missing_cols. now rewrite filter_In, negb_true_iff.
Qed.

(** C7.  The loader and the schema guard.  With no file at the input
    path the script prints its two diagnostic lines and exits with status
    1.  With a table that, once the columns [ts] and [Unnamed: 0] are
    dropped, lacks one of [ldr], [motion], [led], it prints the list of
    the missing columns and exits with status 1.  In both cases nothing
    else runs: the disk is untouched and the output ends with the
    diagnostic. *)
Theorem loader_fails_fast (M : Metrics) (w : World) :
  (fs w CSV_PATH = None ->
   train_model M w
   = (Exit 1, emit w [MsgCsvNotFound; MsgRunExportFirst])) /\
  (forall (df : Frame) (c : string),
      fs w CSV_PATH = Some (Csv df) ->
      In c required_cols ->
      has_col c (without_timestamp df) = false ->
      In c (missing_cols (without_timestamp df)) /\
      train_model M w
      = (Exit 1,
         emit w (MsgLoaded (frame_len df) :: timestamp_lines df
                   ++ [MsgMissingColumns
                         (missing_cols (without_timestamp df))]))) /\
  (forall (df : Frame) (name : string),
      has_col name (without_timestamp df)
      = has_col name df
        && negb (existsb (String.eqb name) ["ts"; "Unnamed: 0"]%string)).
Proof.
  split; [|split].
  - intro Hfile. rewrite train_model_run. unfold train_model_outcome.
    now rewrite Hfile.
  - intros df c Hfile Hreq Hmiss.
    assert (Hin : In c (missing_cols (without_timestamp df)))
      by now apply missing_cols_In.
    split; [exact Hin|].
    rewrite train_model_run. unfold train_model_outcome. rewrite Hfile.
    destruct (missing_cols (without_timestamp df)); [destruct Hin|].
    reflexivity.
  - intros df name. apply has_col_without_timestamp.
Qed.

(** C8.  The numbers of the evaluation stage decide nothing: with any
    two sets of metrics the script ends the same way and leaves the same
    files.  Once the table is read, its schema complete and 50 rows
    valid, the fitted model is written to [led_predictor.pkl] whenever
    the disk takes the write, and the script exits with status 1 when it
    does not.  The script calls [sys.exit] only with status 1 and only for
    an unreadable input, a missing column, fewer than 50 valid rows or a
    failed write. *)
Theorem evaluation_never_gates_saving (w : World) :
  (forall M1 M2 : Metrics,
      fst (train_model M1 w) = fst (train_model M2 w) /\
      fs (snd (train_model M1 w)) = fs (snd (train_model M2 w))) /\
  (forall (M : Metrics) (df : Frame),
      fs w CSV_PATH = Some (Csv df) ->
      missing_cols (without_timestamp df) = [] ->
      (50 <= length (validated df))%nat ->
      let model := fitted (remove_outliers (validated df)) in
      (writable w = true ->
       fs (snd (train_model M w))
       = write_file MODEL_PATH (Pickle model) (fs w) /\
       fs (snd (train_model M w)) MODEL_PATH = Some (Pickle model) /\
       In MsgModelSaved (stdout (snd (train_model M w))) /\
       fst (train_model M w) = fst (after_save model)) /\
      (writable w = false ->
       fst (train_model M w) = Exit 1 /\
       fs (snd (train_model M w)) = fs w)) /\
  (forall (M : Metrics) (c : Z),
      fst (train_model M w) = Exit c ->
      c = 1 /\
      (match fs w CSV_PATH with
       | Some (Csv df) =>
           missing_cols (without_timestamp df) <> [] \/
           (length (validated df) < 50)%nat \/
           writable w = false
       | _ => True
       end)).
Proof.
  split; [|split].
  - intros M1 M2. rewrite !train_model_run. unfold train_model_outcome.
    destruct (fs w CSV_PATH) as [[df|m|]|]; try (split; reflexivity).
    destruct (missing_cols (without_timestamp df));
      [|split; reflexivity].
    cbv zeta. destruct (length (validated df) <? 50)%nat;
      [split; reflexivity|].
    unfold split_fit_save_outcome. cbn [writable emit].
    destruct (writable w); split; reflexivity.
  - intros M df Hfile Hschema Hn model.
    rewrite train_model_run. unfold train_model_outcome.
    rewrite Hfile, Hschema. cbv zeta.
    apply Nat.ltb_ge in Hn. rewrite Hn.
    unfold split_fit_save_outcome. cbn [writable emit]. fold model.
    split; intros ->; cbn [fst snd fs stdout emit].
    + split; [reflexivity|].
      split; [unfold write_file; now rewrite String.eqb_refl|].
      split; [|reflexivity].
      apply in_or_app. right. apply in_or_app. right. now left.
    + split; reflexivity.
  - intros M c. rewrite train_model_run. unfold train_model_outcome.
    destruct (fs w CSV_PATH) as [[df|m|]|];
      try (cbn [fst]; intros [= <-]; split; [reflexivity | exact I]).
    destruct (missing_cols (without_timestamp df)) as [|c0 cols].
    + cbv zeta. destruct (length (validated df) <? 50)%nat eqn:Hn.
      * cbn [fst]. intros [= <-]. split; [reflexivity|].
        right. left. now apply Nat.ltb_lt.
      * unfold split_fit_save_outcome. cbn [writable emit].
        destruct (writable w); cbn [fst].
        -- intro Hexit. now apply after_save_never_exits in Hexit.
        -- intros [= <-]. split; [reflexivity|]. right. now right.
    + cbn [fst]. intros [= <-]. split; [reflexivity|].
      left. discriminate.
Qed.

End LoaderAndSaving.

Lemma loader_fails_fast_witness :
  train_model Demo.metrics (mkWorld (fun _ => None) true [])
  = (Exit 1, mkWorld (fun _ => None) true [MsgCsvNotFound; MsgRunExportFirst])
  /\
  fst (train_model Demo.metrics
         (mkWorld (Demo.disk_with
                     (Some (Csv (drop_columns ["led"%string]
                                   (Demo.history 60)))) CSV_PATH)
                  true []))
  = Exit 1.
Proof.
  destruct (loader_fails_fast (E := Demo.libs) Demo.metrics
              (mkWorld (fun _ => None) true [])) as (Habsent & _).
  destruct (loader_fails_fast (E := Demo.libs) Demo.metrics
              (mkWorld (Demo.disk_with
                          (Some (Csv (drop_columns ["led"%string]
                                        (Demo.history 60)))) CSV_PATH)
                       true [])) as (_ & Hschema & _).
  split.
  - apply Habsent. reflexivity.
  - destruct (Hschema (drop_columns ["led"%string] (Demo.history 60))
                "led"%string) as [_ Hrun].
    + reflexivity.
    + simpl. auto.
    + vm_compute. reflexivity.
    + rewrite Hrun. reflexivity.
Defined.

Lemma evaluation_never_gates_saving_witness :
  fs (snd (train_model Demo.metrics (Demo.world 50 true))) MODEL_PATH
  = Some (@Pickle Demo.libs (Fin (10 # 1))) /\
  fst (train_model Demo.metrics (Demo.world 50 false)) = Exit 1.
Proof.
  destruct (evaluation_never_gates_saving (E := Demo.libs)
              (Demo.world 50 true)) as (_ & Hsave & _).
  destruct (evaluation_never_gates_saving (E := Demo.libs)
              (Demo.world 50 false)) as (_ & Hfail & _).
  destruct (Hsave Demo.metrics (Demo.history 50)) as [Hok _];
    [reflexivity | vm_compute; reflexivity | vm_compute; lia |].
  destruct (Hfail Demo.metrics (Demo.history 50)) as [_ Hexit];
    [reflexivity | vm_compute; reflexivity | vm_compute; lia |].
  split.
  - destruct Hok as (_ & Hfile & _); [reflexivity|].
    rewrite Hfile. vm_compute. reflexivity.
  - now destruct Hexit.
Defined.

(* ===================================================================== *)
(** ** The prediction service *)
(* ===================================================================== *)

Lemma Qtrunc_nonneg (q : Q) : (0 <= q)%Q -> Qtrunc q = Qfloor q.
Proof.
  destruct q as [a b]. unfold Qle, Qtrunc, Qfloor. simpl. intro H.
  apply Z.quot_div_nonneg; lia.
Qed.

Lemma Qtrunc_nonpos (q : Q) : (q <= 0)%Q -> Qtrunc q = Qceiling q.
Proof.
  destruct q as [a b]. unfold Qle, Qtrunc, Qceiling, Qfloor. simpl.
  intro H.
  rewrite <- (Z.opp_involutive a) at 1.
  rewrite Z.quot_opp_l by lia.
  rewrite Z.quot_div_nonneg by lia. reflexivity.
Qed.

Lemma led_of_pred_Fin (q : Q) :
  led_of_pred (Fin q) = inr (Z.max 0 (Z.min 255 (Qtrunc q))).
Proof. unfold led_of_pred. simpl. now rewrite clamp255_minmax. Qed.

Lemma led_of_pred_range (pred : pyfloat) (n : Z) :
  led_of_pred pred = inr n -> 0 <= n <= 255.
Proof.
  unfold led_of_pred. destruct (py_int pred) as [e|k]; [discriminate|].
  intros [= <-]. rewrite clamp255_minmax. lia.
Qed.

Section ServiceFacts.
Context `{E : Externals}.

Lemma load_calls_say (l : LogLine) (s : Server) :
  load_calls (say l s)
  = (load_calls s + if is_load_line l then 1 else 0)%nat.
Proof.
  unfold load_calls, say. simpl log. rewrite filter_app, length_app.
  simpl. destruct (is_load_line l); reflexivity.
Qed.

(** The [try] block reads the state through [model] only. *)
Lemma compute_led_model (b : Body) (s : Server) :
  compute_led b s = compute_led b (mkServer (model s) []).
Proof. reflexivity. Qed.

Lemma compute_led_range (b : Body) (s : Server) (x y : pyfloat) (n : Z) :
  compute_led b s = inr (x, y, n) -> 0 <= n <= 255.
Proof.
  unfold compute_led, ebind.
  destruct (get_json b) as [e|data]; [discriminate|].
  destruct (data_get data "ldr") as [e|v1]; [discriminate|].
  destruct (py_float v1) as [e|x']; [discriminate|].
  destruct (data_get data "motion") as [e|v2]; [discriminate|].
  destruct (py_float v2) as [e|y']; [discriminate|].
  destruct (match model s with
            | Some m => call_predict m x' y'
            | None => inl AttributeError
            end) as [e|pred]; [discriminate|].
  destruct (led_of_pred pred) as [e|k] eqn:Hk; [discriminate|].
  intros [= _ _ <-]. exact (led_of_pred_range _ _ Hk).
Qed.

Lemma answer_response (b : Body) (s : Server) :
  fst (answer b s) =
  match compute_led b s with
  | inr (_, _, n) => mkResponse 200 (JsonLed n)
  | inl e => mkResponse 500 (JsonError (StrOf e))
  end.
Proof.
  unfold answer. destruct (compute_led b s) as [e|[[x y] n]]; reflexivity.
Qed.

Lemma answer_state (b : Body) (s : Server) :
  model (snd (answer b s)) = model s /\
  load_calls (snd (answer b s)) = load_calls s.
Proof.
  unfold answer.
  destruct (compute_led b s) as [e|[[x y] n]]; simpl snd;
    rewrite load_calls_say; simpl; split; auto.
Qed.

Lemma predict_loaded (disk : FileSystem) (b : Body) (s : Server)
  (m : Model) :
  model s = Some m -> predict disk b s = answer b s.
Proof. unfold predict. now intros ->. Qed.

Lemma predict_loads (disk : FileSystem) (b : Body) (s : Server)
  (m : Model) :
  model s = None -> disk MODEL_PATH = Some (Pickle m) ->
  predict disk b s
  = answer b (say LogModelLoaded (mkServer (Some m) (log s))).
Proof.
  intros Hs Hdisk. unfold predict, load_model, path_exists.
  now rewrite Hs, Hdisk.
Qed.

Lemma predict_unavailable (disk : FileSystem) (b : Body) (s : Server) :
  model s = None -> (forall m, disk MODEL_PATH <> Some (Pickle m)) ->
  fst (predict disk b s) = mkResponse 404 (JsonError ModelNotAvailable).
Proof.
  intros Hs Hdisk. unfold predict, load_model, path_exists. rewrite Hs.
  destruct (disk MODEL_PATH) as [[df|m|]|]; try reflexivity.
  now contradiction (Hdisk m).
Qed.

Lemma dict_get_missing (key : string) (items : list (string * json))
  (d : json) :
  has_key key items = false -> dict_get key items d = d.
Proof.
  induction items as [|[k v] items IH]; simpl; [reflexivity|].
  intro H. apply orb_false_iff in H as [Hk Hrest].
  rewrite Hk. now apply IH.
Qed.

(** What the handler answers to a request: the status endpoint looks at
    the file only. *)
Lemma status_response (disk : FileSystem) (s : Server) :
  fst (status disk s) =
  if path_exists disk then mkResponse 200 (Text "ready")
  else mkResponse 404 (Text "not_ready").
Proof. unfold status. destruct (path_exists disk); reflexivity. Qed.

End ServiceFacts.

(** C4, at the input where it fails.  A file sits at the model path but
    [joblib.load] raises on it, and nothing is cached.  [GET /status]
    answers 200 "ready" and the process still holds no model, while
    [POST /predict] on the same disk answers 404 "Model not available":
    [status] calls [load_model] and drops its result. *)
Theorem status_ready_although_load_fails :
  let disk := Demo.disk_with (Some (@Garbage Demo.libs)) MODEL_PATH in
  fst (status disk initial) = mkResponse 200 (Text "ready") /\
  model (snd (status disk initial)) = None /\
  log (snd (status disk initial)) = [LogLoadError] /\
  fst (predict disk (reading 100 0) initial)
  = mkResponse 404 (JsonError ModelNotAvailable).
Proof. repeat split. Qed.

Section ServiceClaims.
Context `{E : Externals}.

(** C5.  [POST /predict].  Every request gets one of three answers:
    200 with a led value in [0, 255], 404 "Model not available", or 500
    with the text of an exception.  It is 404 exactly when no model is
    cached and none can be loaded from the disk.  With a model at hand it
    is 200 when the [try] block runs through and 500 with the exception it
    raised otherwise.  A JSON object without "ldr" (or "motion") is
    answered like the same object with that field set to 0. *)
Theorem predict_contract (disk : FileSystem) (b : Body) (s : Server) :
  let resp := fst (predict disk b s) in
  ((code resp = 200 /\ exists n : Z, payload resp = JsonLed n /\ 0 <= n <= 255)
   \/ resp = mkResponse 404 (JsonError ModelNotAvailable)
   \/ (code resp = 500 /\ exists e : pyexn, payload resp = JsonError (StrOf e)))
  /\
  (model s = None -> (forall m, disk MODEL_PATH <> Some (Pickle m)) ->
   resp = mkResponse 404 (JsonError ModelNotAvailable)) /\
  (forall m : Model,
      model s = Some m \/ (model s = None /\ disk MODEL_PATH = Some (Pickle m)) ->
      resp = match compute_led b (mkServer (Some m) []) with
             | inr (_, _, n) => mkResponse 200 (JsonLed n)
             | inl e => mkResponse 500 (JsonError (StrOf e))
             end) /\
  (forall items : list (string * json),
      b = BodyJson (JObj items) ->
      (has_key "ldr" items = false ->
       resp = fst (predict disk
                     (BodyJson (JObj (("ldr"%string, JNum (of_Z 0)) :: items)))
                     s)) /\
      (has_key "motion" items = false ->
       resp = fst (predict disk
                     (BodyJson (JObj (("motion"%string, JNum (of_Z 0)) :: items)))
                     s))).
Proof.
  intro resp.
  assert (Hwith : forall m : Model,
             model s = Some m
             \/ (model s = None /\ disk MODEL_PATH = Some (Pickle m)) ->
             resp = match compute_led b (mkServer (Some m) []) with
                    | inr (_, _, n) => mkResponse 200 (JsonLed n)
                    | inl e => mkResponse 500 (JsonError (StrOf e))
                    end).
  { intros m [Hs|[Hs Hdisk]]; subst resp.
    - rewrite (predict_loaded disk b s m Hs), answer_response.
      now rewrite compute_led_model, Hs.
    - rewrite (predict_loads disk b s m Hs Hdisk), answer_response.
      now rewrite compute_led_model. }
  assert (Hnone : model s = None ->
                  (forall m, disk MODEL_PATH <> Some (Pickle m)) ->
                  resp = mkResponse 404 (JsonError ModelNotAvailable)).
  { intros Hs Hdisk. now apply predict_unavailable. }
  split; [|split; [exact Hnone|split; [exact Hwith|]]].
  - assert (Hcase : (exists m, model s = Some m
                        \/ (model s = None /\ disk MODEL_PATH = Some (Pickle m)))
                    \/ (model s = None
                        /\ forall m, disk MODEL_PATH <> Some (Pickle m))).
    { destruct (model s) as [m|]; [left; exists m; now left|].
      destruct (disk MODEL_PATH) as [[df|m|]|];
        try (right; split; [reflexivity | intros m' ?; discriminate]).
      left. exists m. right. now split. }
    destruct Hcase as [[m Hm]|[Hs Hdisk]].
    + rewrite (Hwith m Hm).
      destruct (compute_led b (mkServer (Some m) []))
        as [e|[[x y] n]] eqn:Hled.
      * right. right. split; [reflexivity|]. now exists e.
      * left. split; [reflexivity|]. exists n. split; [reflexivity|].
        exact (compute_led_range _ _ _ _ _ Hled).
    + right. left. now apply Hnone.
  - intros items ->. subst resp. unfold predict, answer, compute_led.
    split; intro Hmiss; cbn [get_json ebind data_get dict_get];
      rewrite (dict_get_missing _ _ _ Hmiss); reflexivity.
Qed.

End ServiceClaims.

Lemma predict_contract_witness :
  fst (predict (Demo.artifact (Fin (1234 # 10)))
               (reading 100 0) initial)
  = mkResponse 200 (JsonLed 123) /\
  fst (predict (Demo.artifact (Fin (1234 # 10)))
               (BodyJson (JObj [("ldr"%string, JNull)])) initial)
  = mkResponse 500 (JsonError (StrOf TypeError)) /\
  fst (predict Demo.no_artifact (reading 100 0) initial)
  = mkResponse 404 (JsonError ModelNotAvailable) /\
  fst (predict Demo.no_artifact
               (BodyJson (JObj [("ldr"%string, JNum (of_Z 7))]))
               (Demo.holding (Fin (5 # 1))))
  = mkResponse 200 (JsonLed 5).
Proof.
  pose (disk := Demo.artifact (Fin (1234 # 10))).
  destruct (predict_contract (E := Demo.libs) disk (reading 100 0) initial)
    as (_ & _ & Hok & _).
  destruct (predict_contract (E := Demo.libs) disk
              (BodyJson (JObj [("ldr"%string, JNull)])) initial)
    as (_ & _ & Hbad & _).
  destruct (predict_contract (E := Demo.libs) Demo.no_artifact
              (reading 100 0) initial)
    as (_ & Hnone & _).
  destruct (predict_contract (E := Demo.libs) Demo.no_artifact
              (BodyJson (JObj [("ldr"%string, JNum (of_Z 7))]))
              (Demo.holding (Fin (5 # 1))))
    as (_ & _ & _ & Hdefault).
  split; [|split; [|split]].
  - fold disk. rewrite (Hok (Fin (1234 # 10))); [reflexivity|].
    right. split; reflexivity.
  - fold disk. rewrite (Hbad (Fin (1234 # 10))); [reflexivity|].
    right. split; reflexivity.
  - apply Hnone; [reflexivity|]. intros m. discriminate.
  - destruct (Hdefault [("ldr"%string, JNum (of_Z 7))] eq_refl)
      as [_ Hmotion].
    rewrite Hmotion; reflexivity.
Defined.

Section TruncationAndCache.
Context `{E : Externals}.

(** C9.  The led value of a 200 answer is [max(0, min(255, int(pred)))]
    with [int] truncating toward zero: the floor of a non-negative
    prediction, the ceiling of a negative one.  A prediction of 200.9
    gives 200. *)
Theorem predict_truncates_then_clamps :
  (forall q : Q, led_of_pred (Fin q) = inr (Z.max 0 (Z.min 255 (Qtrunc q))))
  /\
  (forall q : Q, (0 <= q)%Q -> Qtrunc q = Qfloor q) /\
  (forall q : Q, (q <= 0)%Q -> Qtrunc q = Qceiling q) /\
  led_of_pred (Fin (2009 # 10)) = inr 200 /\
  (forall (disk : FileSystem) (items : list (string * json)) (s : Server)
          (m : Model) (x y : pyfloat) (q : Q),
      model s = Some m ->
      py_float (dict_get "ldr" items (JNum (of_Z 0))) = inr x ->
      py_float (dict_get "motion" items (JNum (of_Z 0))) = inr y ->
      call_predict m x y = inr (Fin q) ->
      fst (predict disk (BodyJson (JObj items)) s)
      = mkResponse 200 (JsonLed (Z.max 0 (Z.min 255 (Qtrunc q))))).
Proof.
  split; [exact led_of_pred_Fin|].
  split; [exact Qtrunc_nonneg|].
  split; [exact Qtrunc_nonpos|].
  split; [reflexivity|].
  intros disk items s m x y q Hs Hx Hy Hpred.
  rewrite (predict_loaded disk _ s m Hs), answer_response.
  unfold compute_led. cbn [get_json ebind data_get].
  rewrite Hx. cbn [ebind]. rewrite Hy. cbn [ebind].
  rewrite Hs, Hpred. cbn [ebind]. rewrite led_of_pred_Fin. reflexivity.
Qed.

Lemma handle_loaded (disk : FileSystem) (r : Request) (s : Server)
  (m : Model) :
  model s = Some m ->
  fst (handle disk r s) = respond_loaded m disk r /\
  model (snd (handle disk r s)) = Some m /\
  load_calls (snd (handle disk r s)) = load_calls s.
Proof.
  intro Hs. destruct r as [|b|]; simpl handle.
  - unfold status, respond_loaded. rewrite Hs.
    destruct (path_exists disk); simpl; auto.
  - rewrite (predict_loaded disk b s m Hs).
    destruct (answer_state b s) as [Hm Hcalls].
    unfold respond_loaded.
    rewrite !answer_response, compute_led_model, Hs, Hm. auto.
  - unfold root, respond_loaded. rewrite Hs. simpl. auto.
Qed.


End TruncationAndCache.

Lemma predict_truncates_then_clamps_witness :
  fst (predict Demo.no_artifact (reading 100 0)
               (Demo.holding (Fin (2009 # 10))))
  = mkResponse 200 (JsonLed 200) /\
  Qtrunc (2009 # 10) = 200 /\ Qtrunc (- (5 # 10)) = 0.
Proof.
  destruct (predict_truncates_then_clamps (E := Demo.libs))
    as (_ & Hfloor & Hceil & _ & Hserve).
  split; [|split].
  - unfold reading.
    rewrite (Hserve Demo.no_artifact _
               (Demo.holding (Fin (2009 # 10))) (Fin (2009 # 10))
               (of_Z 100) (of_Z 0) (2009 # 10));
      reflexivity.
  - rewrite Hfloor; [reflexivity | discriminate].
  - rewrite Hceil; [reflexivity | discriminate].
Defined.


(* ===================================================================== *)
(** ** The cleaning stage *)
(* ===================================================================== *)

Lemma feqb_refl (x : pyfloat) : is_nan x = false -> feqb x x = true.
Proof.
  destruct x as [| |a|]; simpl; try discriminate; auto.
  intros _. apply Qeq_bool_iff. reflexivity.
Qed.

Lemma feqb_sym (x y : pyfloat) : feqb x y = feqb y x.
Proof.
  destruct x as [| |a|], y as [| |b|]; simpl; try reflexivity.
  destruct (Qeq_bool a b) eqn:Hab, (Qeq_bool b a) eqn:Hba; try reflexivity.
  - apply Qeq_bool_iff in Hab. symmetry in Hab.
    apply Qeq_bool_iff in Hab. congruence.
  - apply Qeq_bool_iff in Hba. symmetry in Hba.
    apply Qeq_bool_iff in Hba. congruence.
Qed.

Lemma row_eqb_refl (r : NRow) : no_nan r -> row_eqb r r = true.
Proof.
  unfold no_nan, row_eqb. destruct r as [l m d]. simpl.
  rewrite !orb_false_iff. intros (Hl & Hm & Hd & _).
  now rewrite !feqb_refl.
Qed.

Lemma row_eqb_sym (r s : NRow) : row_eqb r s = row_eqb s r.
Proof.
  unfold row_eqb.
  now rewrite (feqb_sym (ldr r)), (feqb_sym (motion r)), (feqb_sym (led r)).
Qed.

Lemma drop_duplicates_from_In (seen df : list NRow) (r : NRow) :
  In r (drop_duplicates_from seen df) ->
  In r df /\ existsb (row_eqb r) seen = false.
Proof.
  revert seen. induction df as [|x rest IH]; intros seen; simpl.
  - intros [].
  - destruct (existsb (row_eqb x) seen) eqn:Hx.
    + intro H. apply IH in H as [Hin Hseen]. auto.
    + intros [<-|H]; [auto|].
      apply IH in H as [Hin Hseen]. simpl in Hseen.
      apply orb_false_iff in Hseen as [_ Hseen]. auto.
Qed.

Lemma drop_duplicates_from_distinct (seen df : list NRow) :
  distinct_rows (drop_duplicates_from seen df).
Proof.
  revert seen. induction df as [|x rest IH]; intros seen; simpl.
  - constructor.
  - destruct (existsb (row_eqb x) seen); [apply IH|].
    constructor; [|apply IH].
    apply Forall_forall. intros s Hs.
    apply drop_duplicates_from_In in Hs as [_ Hs].
    simpl in Hs. apply orb_false_iff in Hs as [Hs _].
    now rewrite row_eqb_sym.
Qed.

Lemma drop_duplicates_from_covers (seen df : list NRow) (r : NRow) :
  no_nan r -> In r df ->
  existsb (row_eqb r) seen = true \/
  exists s : NRow, In s (drop_duplicates_from seen df) /\ row_eqb r s = true.
Proof.
  intro Hr. revert seen. induction df as [|x rest IH]; intros seen Hin.
  - destruct Hin.
  - simpl. destruct (existsb (row_eqb x) seen) eqn:Hx.
    + destruct Hin as [<-|Hin]; [now left | now apply IH].
    + destruct Hin as [<-|Hin].
      * right. exists x. split; [now left | now apply row_eqb_refl].
      * destruct (IH (x :: seen) Hin) as [Hseen|(s & Hs & Hrs)].
        -- simpl in Hseen. apply orb_true_iff in Hseen as [Hrx|Hseen];
             [|now left].
           right. exists x. split; [now left | exact Hrx].
        -- right. exists s. split; [now right | exact Hrs].
Qed.

Lemma drop_duplicates_from_first (seen l1 l2 : list NRow) (r : NRow) :
  existsb (row_eqb r) (seen ++ l1) = false ->
  In r (drop_duplicates_from seen (l1 ++ r :: l2)).
Proof.
  revert seen. induction l1 as [|x l1 IH]; intros seen Hnew; simpl.
  - rewrite app_nil_r in Hnew. rewrite Hnew. now left.
  - rewrite existsb_app in Hnew. simpl in Hnew.
    apply orb_false_iff in Hnew as [Hseen Hnew].
    apply orb_false_iff in Hnew as [Hrx Hl1].
    destruct (existsb (row_eqb x) seen).
    + apply IH. rewrite existsb_app. now rewrite Hseen, Hl1.
    + right. apply IH. rewrite existsb_app. simpl.
      now rewrite Hrx, Hseen, Hl1.
Qed.

Lemma drop_duplicates_from_length (seen df : list NRow) :
  (length (drop_duplicates_from seen df) <= length df)%nat /\
  (length (drop_duplicates_from seen df) = length df ->
   drop_duplicates_from seen df = df).
Proof.
  revert seen. induction df as [|x rest IH]; intros seen; simpl.
  - auto.
  - destruct (existsb (row_eqb x) seen).
    + destruct (IH seen) as [Hle _]. split; [lia|]. intro H. exfalso. lia.
    + destruct (IH (x :: seen)) as [Hle Heq]. simpl. split; [lia|].
      intro H. f_equal. apply Heq. lia.
Qed.

(** The test of line 73 is there for the message only. *)
Lemma without_duplicates_eq (df : list NRow) :
  without_duplicates df = drop_duplicates df.
Proof.
  unfold without_duplicates, count_duplicates, drop_duplicates.
  destruct (drop_duplicates_from_length [] df) as [Hle Heq].
  destruct (0 <? length df - length (drop_duplicates_from [] df))%nat
    eqn:Hcount; [reflexivity|].
  apply Nat.ltb_ge in Hcount. symmetry. apply Heq. lia.
Qed.

Lemma count_missing_zero (df : list (Row cell)) :
  count_missing df = 0%nat -> dropna_raw df = df.
Proof.
  unfold count_missing, dropna_raw.
  induction df as [|r rest IH]; [reflexivity|].
  intro H. cbn [list_sum map] in H. cbn [filter].
  apply Nat.eq_add_0 in H as [Hr Hrest].
  assert (Hnone : existsb isnull (row_cells r) = false).
  { destruct (existsb isnull (row_cells r)) eqn:Hex; [|reflexivity].
    apply existsb_exists in Hex as (c & Hc & Hnull).
    assert (Hin : In c (filter isnull (row_cells r)))
      by (apply filter_In; auto).
    destruct (filter isnull (row_cells r)); [destruct Hin | discriminate]. }
  rewrite Hnone. simpl. f_equal. now apply IH.
Qed.

(** The test of line 58 is there for the messages only. *)
Lemma without_missing_eq (df : list (Row cell)) :
  without_missing df = dropna_raw df.
Proof.
  unfold without_missing.
  destruct (0 <? count_missing df)%nat eqn:Hcount; [reflexivity|].
  apply Nat.ltb_ge in Hcount. symmetry. apply count_missing_zero. lia.
Qed.

Lemma filter_map_filter {A B : Type} (p : A -> bool) (q : B -> bool)
  (f : A -> B) (l : list A) :
  (forall a : A, p a = false -> q (f a) = false) ->
  filter q (map f (filter p l)) = filter q (map f l).
Proof.
  intro H. induction l as [|a l IH]; simpl; [reflexivity|].
  destruct (p a) eqn:Hp; simpl; [now rewrite IH|].
  now rewrite (H a Hp).
Qed.

Section CleaningFacts.
Context `{E : Externals}.

Lemma isnull_to_numeric (c : cell) :
  isnull c = true -> is_nan (to_numeric_cell c) = true.
Proof. destruct c; simpl; [auto | discriminate]. Qed.

(** A row with a missing cell is dropped by line 69 whether or not line
    61 dropped it before. *)
Lemma dropna_absorbs_dropna_raw (df : list (Row cell)) :
  dropna (to_numeric (dropna_raw df)) = dropna (to_numeric df).
Proof.
  unfold dropna, to_numeric, dropna_raw.
  apply filter_map_filter. intros r Hr.
  apply negb_false_iff in Hr. apply negb_false_iff.
  apply existsb_exists in Hr as (c & Hc & Hnull).
  apply existsb_exists. exists (to_numeric_cell c).
  split; [|now apply isnull_to_numeric].
  unfold row_cells in *. simpl in *. intuition (subst; auto).
Qed.

(** X3.  The two tests of the cleaning stage (is anything missing, is
    anything duplicated) only decide what is printed, and the first
    [dropna] removes nothing the second would keep: the frame that
    reaches validation is the file's three columns made numeric, without
    the rows holding a missing value, without repeated rows. *)
Theorem cleaning_tests_only_print (df : Frame) :
  cleaned df
  = drop_duplicates
      (dropna (to_numeric (select_required (without_timestamp df)))).
Proof.
  unfold cleaned.
  now rewrite without_duplicates_eq, without_missing_eq,
    dropna_absorbs_dropna_raw.
Qed.

Lemma dropna_no_nan (df : list NRow) : Forall no_nan (dropna df).
Proof.
  apply Forall_forall. intros r Hr. unfold dropna in Hr.
  apply filter_In in Hr as [_ Hr]. now apply negb_true_iff in Hr.
Qed.

Lemma cleaned_In (df : Frame) (r : NRow) :
  In r (cleaned df) ->
  In r (to_numeric (select_required (without_timestamp df))) /\ no_nan r.
Proof.
  unfold cleaned. rewrite without_duplicates_eq, without_missing_eq,
    dropna_absorbs_dropna_raw.
  intro H. apply drop_duplicates_from_In in H as [H _].
  split.
  - unfold dropna in H. now apply filter_In in H as [H _].
  - pose proof (dropna_no_nan
      (to_numeric (select_required (without_timestamp df)))) as Hall.
    rewrite Forall_forall in Hall. now apply Hall.
Qed.

Lemma distinct_rows_filter (p : NRow -> bool) (df : list NRow) :
  distinct_rows df -> distinct_rows (filter p df).
Proof.
  induction 1 as [|x l Hx Hl IH]; simpl; [constructor|].
  destruct (p x); [|exact IH].
  constructor; [|exact IH].
  apply Forall_forall. intros s Hs. apply filter_In in Hs as [Hs _].
  rewrite Forall_forall in Hx. now apply Hx.
Qed.

(** X1.  The rows the row-count check counts are valid samples, none
    holds a missing value, and no two of them are equal: fifty counted
    rows are fifty different samples. *)
Theorem counted_rows_are_distinct_samples (df : Frame) :
  Forall valid_sample (validated df) /\
  Forall no_nan (validated df) /\
  distinct_rows (validated df).
Proof.
  unfold validated. split; [|split].
  - apply Forall_forall. intros r Hr. rewrite validate_filter in Hr.
    apply filter_In in Hr as [_ Hr]. now apply valid_sampleb_iff.
  - apply Forall_forall. intros r Hr. rewrite validate_filter in Hr.
    apply filter_In in Hr as [Hr _]. now apply cleaned_In in Hr.
  - rewrite validate_filter. apply distinct_rows_filter.
    unfold cleaned. rewrite without_duplicates_eq.
    apply drop_duplicates_from_distinct.
Qed.

End CleaningFacts.

(** X2.  [drop_duplicates] on a frame without missing values: the rows
    kept are pairwise different rows of the frame, every row of the frame
    equals a kept one, and a row that equals none before it is kept
    itself. *)
Theorem drop_duplicates_keeps_first (df : list NRow) :
  Forall no_nan df ->
  distinct_rows (drop_duplicates df) /\
  (forall r : NRow, In r (drop_duplicates df) -> In r df) /\
  (forall r : NRow,
      In r df ->
      exists s : NRow, In s (drop_duplicates df) /\ row_eqb r s = true) /\
  (forall (l1 l2 : list NRow) (r : NRow),
      df = l1 ++ r :: l2 -> existsb (row_eqb r) l1 = false ->
      In r (drop_duplicates df)).
Proof.
  intro Hdf. unfold drop_duplicates.
  split; [apply drop_duplicates_from_distinct|].
  split; [intros r Hr; now apply drop_duplicates_from_In in Hr|].
  split.
  - intros r Hr.
    assert (Hnan : no_nan r) by (rewrite Forall_forall in Hdf; auto).
    destruct (drop_duplicates_from_covers [] df r Hnan Hr) as [H|H];
      [discriminate | exact H].
  - intros l1 l2 r -> Hnew. now apply drop_duplicates_from_first.
Qed.

Lemma drop_duplicates_keeps_first_witness :
  drop_duplicates
    [mkRow (of_Z 1) (of_Z 0) (of_Z 9); mkRow (of_Z 2) (of_Z 1) (of_Z 8);
     mkRow (Fin (2 # 2)) (of_Z 0) (of_Z 9)]
  = [mkRow (of_Z 1) (of_Z 0) (of_Z 9); mkRow (of_Z 2) (of_Z 1) (of_Z 8)]
  /\
  In (mkRow (of_Z 2) (of_Z 1) (of_Z 8))
     (drop_duplicates
        [mkRow (of_Z 1) (of_Z 0) (of_Z 9); mkRow (of_Z 2) (of_Z 1) (of_Z 8);
         mkRow (Fin (2 # 2)) (of_Z 0) (of_Z 9)]).
Proof.
  split; [reflexivity|].
  assert (Hdf : Forall no_nan
            [mkRow (of_Z 1) (of_Z 0) (of_Z 9);
             mkRow (of_Z 2) (of_Z 1) (of_Z 8);
             mkRow (Fin (2 # 2)) (of_Z 0) (of_Z 9)])
    by (repeat constructor).
  destruct (drop_duplicates_keeps_first _ Hdf) as (_ & _ & _ & Hfirst).
  apply (Hfirst [mkRow (of_Z 1) (of_Z 0) (of_Z 9)]
                [mkRow (Fin (2 # 2)) (of_Z 0) (of_Z 9)]);
    reflexivity.
Defined.

(* ===================================================================== *)
(** ** From validation to the split *)
(* ===================================================================== *)

Lemma remove_outliers_In (df : list NRow) (r : NRow) :
  In r (remove_outliers df) -> In r df.
Proof.
  unfold remove_outliers. destruct (outlier_guard df); [|auto].
  intro H. now apply filter_In in H.
Qed.

Lemma remove_outliers_length (df : list NRow) :
  Forall label_in_range df ->
  (length (remove_outliers df) <= length df)%nat /\
  (df <> [] -> (9 * length df < 10 * length (remove_outliers df))%nat).
Proof.
  intro Hfin. destruct (outlier_guard df) eqn:Hg.
  - rewrite (remove_outliers_removing df Hfin Hg).
    apply outlier_guard_iff in Hg as [_ Hten].
    pose proof (filter_complement_length (is_outlier (iqr_bounds df)) df)
      as Hsum.
    unfold outliers in Hten. split; lia.
  - unfold remove_outliers. rewrite Hg. split; [lia|].
    intro Hne. destruct df; [congruence | simpl; lia].
Qed.

Section ValidationToSplit.
Context `{E : Externals}.

(** X4.  Every row handed to the train/test split is a valid sample and
    is a row of the input file as [pd.to_numeric] reads it: the stages
    remove rows and never change or add one. *)
Theorem split_receives_file_rows (df : Frame) :
  Forall (fun r : NRow =>
            In r (to_numeric (select_required (without_timestamp df)))
            /\ valid_sample r)
         (remove_outliers (validated df)).
Proof.
  apply Forall_forall. intros r Hr.
  apply remove_outliers_In in Hr. unfold validated in Hr.
  rewrite validate_filter in Hr. apply filter_In in Hr as [Hin Hok].
  split; [now apply cleaned_In in Hin | now apply valid_sampleb_iff].
Qed.

(** X5.  The outlier stage removes fewer than a tenth of the validated
    rows, so a frame that passed the row-count check reaches the split
    with at least 46 rows. *)
Theorem outlier_stage_keeps_nine_tenths (df : Frame) :
  let v := validated df in
  (length (remove_outliers v) <= length v)%nat /\
  (v <> [] -> (9 * length v < 10 * length (remove_outliers v))%nat) /\
  ((50 <= length v)%nat -> (46 <= length (remove_outliers v))%nat).
Proof.
  intro v.
  destruct (remove_outliers_length v (validate_label_in_range (cleaned df)))
    as [Hle Hnine].
  split; [exact Hle|]. split; [exact Hnine|].
  intro Hn. assert (Hne : v <> []) by (destruct v; simpl in Hn; [lia|congruence]).
  specialize (Hnine Hne). lia.
Qed.

End ValidationToSplit.

(* ===================================================================== *)
(** ** Truncation and the two clamps *)
(* ===================================================================== *)

Lemma Qtrunc_Z (n : Z) : Qtrunc (inject_Z n) = n.
Proof. unfold Qtrunc, inject_Z. simpl. apply Z.quot_1_r. Qed.

Lemma Qtrunc_monotone (p q : Q) : (p <= q)%Q -> Qtrunc p <= Qtrunc q.
Proof.
  intro Hpq.
  destruct (Qlt_le_dec p 0) as [Hp|Hp], (Qlt_le_dec q 0) as [Hq|Hq].
  - rewrite !Qtrunc_nonpos by now apply Qlt_le_weak.
    now apply Qceiling_resp_le.
  - rewrite (Qtrunc_nonpos p) by now apply Qlt_le_weak.
    rewrite (Qtrunc_nonneg q) by assumption.
    apply Z.le_trans with 0.
    + rewrite <- (Qceiling_Z 0). apply Qceiling_resp_le.
      now apply Qlt_le_weak.
    + rewrite <- (Qfloor_Z 0). now apply Qfloor_resp_le.
  - exfalso. apply (Qlt_irrefl 0).
    apply Qle_lt_trans with q; [|exact Hq].
    now apply Qle_trans with p.
  - rewrite !Qtrunc_nonneg by assumption. now apply Qfloor_resp_le.
Qed.

Lemma py_int_np_clip_raises (x : pyfloat) (e : pyexn) :
  py_int (np_clip x) = inl e -> x = NaN /\ e = ValueError.
Proof.
  destruct x as [| |a|]; try discriminate.
  - intros [= <-]. auto.
  - rewrite np_clip_Fin.
    destruct (Qle_bool 0 a); [destruct (Qle_bool a 255)|]; discriminate.
Qed.

(** X6.  The training script clamps and then truncates
    ([int(np.clip(x, 0, 255))]), the service truncates and then clamps
    ([max(0, min(255, int(x)))]); on every finite prediction the two give
    the same integer.  They differ on an infinite one only: the script
    prints 0 or 255 where the service raises [OverflowError]. *)
Theorem script_and_service_clamp_agree :
  (forall q : Q, py_int (np_clip (Fin q)) = led_of_pred (Fin q)) /\
  (py_int (np_clip PosInf) = inr 255
   /\ led_of_pred PosInf = inl OverflowError) /\
  (py_int (np_clip NegInf) = inr 0
   /\ led_of_pred NegInf = inl OverflowError) /\
  (py_int (np_clip NaN) = inl ValueError
   /\ led_of_pred NaN = inl ValueError).
Proof.
  split; [|repeat split].
  intro q. rewrite led_of_pred_Fin, np_clip_Fin.
  destruct (Qle_bool 0 q) eqn:H0; [destruct (Qle_bool q 255) eqn:H1|].
  - apply Qle_bool_iff in H0, H1. simpl. f_equal.
    pose proof (Qtrunc_monotone _ _ H0) as Hlo.
    pose proof (Qtrunc_monotone _ _ H1) as Hhi.
    change 0%Q with (inject_Z 0) in Hlo.
    change 255%Q with (inject_Z 255) in Hhi.
    rewrite Qtrunc_Z in Hlo, Hhi. lia.
  - apply Qle_bool_false in H1. simpl. f_equal.
    pose proof (Qtrunc_monotone _ _ (Qlt_le_weak _ _ H1)) as Hhi.
    change 255%Q with (inject_Z 255) in Hhi. rewrite Qtrunc_Z in Hhi.
    change (Qtrunc (inject_Z 255)) with 255. lia.
  - apply Qle_bool_false in H0. simpl. f_equal.
    pose proof (Qtrunc_monotone _ _ (Qlt_le_weak _ _ H0)) as Hlo.
    change 0%Q with (inject_Z 0) in Hlo. rewrite Qtrunc_Z in Hlo.
    change (Qtrunc (inject_Z 0)) with 0. lia.
Qed.

(** X7.  The led value follows the prediction: it is 0 below 0, 255 from
    255 on, in between the integer [n] with [n <= pred < n + 1]; and a
    larger prediction never gives a smaller led value. *)
Theorem led_follows_prediction :
  (forall q : Q,
      exists n : Z,
        led_of_pred (Fin q) = inr n /\
        ((q < 0)%Q -> n = 0) /\
        ((255 <= q)%Q -> n = 255) /\
        ((0 <= q <= 255)%Q -> (inject_Z n <= q < inject_Z n + 1)%Q)) /\
  (forall (p q : Q) (m n : Z),
      (p <= q)%Q -> led_of_pred (Fin p) = inr m ->
      led_of_pred (Fin q) = inr n -> m <= n).
Proof.
  split.
  - intro q. exists (Z.max 0 (Z.min 255 (Qtrunc q))).
    split; [apply led_of_pred_Fin|].
    split; [|split].
    + intro Hq.
      pose proof (Qtrunc_monotone _ _ (Qlt_le_weak _ _ Hq)) as H.
      change 0%Q with (inject_Z 0) in H. rewrite Qtrunc_Z in H. lia.
    + intro Hq. pose proof (Qtrunc_monotone _ _ Hq) as H.
      change 255%Q with (inject_Z 255) in H. rewrite Qtrunc_Z in H. lia.
    + intros [H0 H1].
      pose proof (Qtrunc_monotone _ _ H0) as Hlo.
      pose proof (Qtrunc_monotone _ _ H1) as Hhi.
      change 0%Q with (inject_Z 0) in Hlo.
      change 255%Q with (inject_Z 255) in Hhi.
      rewrite Qtrunc_Z in Hlo, Hhi.
      replace (Z.max 0 (Z.min 255 (Qtrunc q))) with (Qtrunc q) by lia.
      rewrite (Qtrunc_nonneg q H0).
      split; [apply Qfloor_le|].
      pose proof (Qlt_floor q) as Hlt.
      rewrite inject_Z_plus in Hlt. exact Hlt.
  - intros p q m n Hpq. rewrite !led_of_pred_Fin. intros [= <-] [= <-].
    pose proof (Qtrunc_monotone _ _ Hpq). lia.
Qed.

(* ===================================================================== *)
(** ** How a run of the training script ends *)
(* ===================================================================== *)

Section TrainingEnds.
Context `{E : Externals}.

Lemma sample_lines_raises (model : Model) (l : list (Z * Z * string))
  (e : pyexn) :
  snd (sample_lines model l) = Some e -> e = ValueError.
Proof.
  induction l as [|[[l_ m_] desc] rest IH]; simpl; [discriminate|].
  destruct (py_int (np_clip (forest_predict model (of_Z l_) (of_Z m_))))
    as [e'|pred] eqn:Hint; simpl.
  - intros [= <-]. now apply py_int_np_clip_raises in Hint.
  - exact IH.
Qed.

Lemma write_file_other (path p : string) (f : File) (disk : FileSystem) :
  p <> path -> write_file path f disk p = disk p.
Proof.
  intro Hp. unfold write_file.
  apply String.eqb_neq in Hp. now rewrite Hp.
Qed.

Lemma train_model_keeps_other_files (M : Metrics) (w : World) (p : string) :
  p <> MODEL_PATH -> fs (snd (train_model M w)) p = fs w p.
Proof.
  intro Hp. rewrite train_model_run. unfold train_model_outcome.
  destruct (fs w CSV_PATH) as [[df|m|]|]; try reflexivity.
  destruct (missing_cols (without_timestamp df)); [|reflexivity].
  cbv zeta. destruct (length (validated df) <? 50)%nat; [reflexivity|].
  unfold split_fit_save_outcome. cbn [writable emit].
  destruct (writable w); cbn [snd fs emit]; [|reflexivity].
  now apply write_file_other.
Qed.

(** X8.  What a run of the script changes outside its output: it writes
    the file [led_predictor.pkl], it creates the directory [../data] when
    nothing was there, and that is all.  Every other path, the input
    table among them, holds after the run what it held before, however
    the run ends; what is at [../data] is never removed; and when the
    directory cannot be created nothing is written or printed at all. *)
Theorem script_writes_artifact_and_data_dir (M : Metrics) (d : DataDir)
  (w : World) :
  let run := train_script M d w in
  (forall p : string,
      p <> MODEL_PATH -> fs (world_after run) p = fs w p) /\
  fs (world_after run) CSV_PATH = fs w CSV_PATH /\
  match d with
  | DirPresent => dir_after run = DirPresent
  | DirMissing true => dir_after run = DirPresent
  | DirMissing false => dir_after run = d /\ world_after run = w
  end.
Proof.
  intro run.
  assert (H : forall p : string,
             p <> MODEL_PATH -> fs (world_after run) p = fs w p).
  { intros p Hp. subst run. unfold train_script.
    destruct d as [|[|]]; cbn [ensure_data_dir world_after];
      [now apply train_model_keeps_other_files
      |now apply train_model_keeps_other_files
      |reflexivity]. }
  split; [exact H|]. split; [apply H; discriminate|].
  subst run. unfold train_script.
  destruct d as [|[|]]; cbn [ensure_data_dir dir_after world_after];
    [reflexivity | reflexivity | split; reflexivity].
Qed.

(** How the stages end, once the directory is there. *)
Lemma train_model_endings (M : Metrics) (w : World) :
  match fst (train_model M w) with
  | Ok _ =>
      (exists model : Model,
          fs (snd (train_model M w))
          = write_file MODEL_PATH (Pickle model) (fs w)) /\
      (exists msgs : list Msg,
          stdout (snd (train_model M w)) = stdout w ++ msgs ++ [MsgReady])
  | Exit c =>
      c = 1 /\
      exists (msgs : list Msg) (last : Msg),
        stdout (snd (train_model M w)) = stdout w ++ msgs ++ [last] /\
        is_exit_line last = true /\
        (last <> MsgSaveError -> fs (snd (train_model M w)) = fs w)
  | Uncaught e =>
      e = ValueError /\
      (exists model : Model,
          fs (snd (train_model M w))
          = write_file MODEL_PATH (Pickle model) (fs w)) /\
      In MsgModelSaved (stdout (snd (train_model M w)))
  end.
Proof.
  rewrite train_model_run. unfold train_model_outcome.
  destruct (fs w CSV_PATH) as [[df|m|]|].
  - destruct (missing_cols (without_timestamp df)) as [|c cols].
    + cbv zeta. destruct (length (validated df) <? 50)%nat.
      * cbn [fst snd]. split; [reflexivity|].
        exists (cleaning_lines df ++ [MsgOnlyValid (length (validated df))]),
          MsgCollectMore.
        cbn [emit stdout fs]. rewrite <- ?app_assoc.
        repeat split; reflexivity.
      * unfold split_fit_save_outcome. cbn [writable emit].
        destruct (writable w).
        -- cbn [fst snd fs stdout]. unfold after_save.
           set (model := fitted (remove_outliers (validated df))).
           destruct (snd (sample_lines model samples)) as [e|] eqn:Hend;
             cbn [fst snd].
           ++ split; [exact (sample_lines_raises _ _ _ Hend)|].
              split; [now exists model|].
              apply in_or_app. right. apply in_or_app. right. now left.
           ++ split; [now exists model|].
              exists ((cleaning_lines df
                         ++ [MsgCleanDataset (length (validated df));
                             outlier_line (validated df)])
                        ++ fit_lines M (remove_outliers (validated df))
                        ++ MsgModelSaved :: fst (sample_lines model samples)).
              cbn [emit stdout]. rewrite <- !app_assoc. reflexivity.
        -- cbn [fst snd]. split; [reflexivity|].
           exists ((cleaning_lines df
                      ++ [MsgCleanDataset (length (validated df));
                          outlier_line (validated df)])
                     ++ fit_lines M (remove_outliers (validated df))),
             MsgSaveError.
           cbn [emit stdout fs]. rewrite <- ?app_assoc.
           repeat split; reflexivity.
    + cbn [fst snd]. split; [reflexivity|].
      exists (MsgLoaded (frame_len df) :: timestamp_lines df),
        (MsgMissingColumns (c :: cols)).
      cbn [emit stdout fs]. rewrite <- ?app_assoc.
      repeat split; reflexivity.
  - cbn [fst snd]. split; [reflexivity|].
    exists [], MsgCsvError. repeat split; reflexivity.
  - cbn [fst snd]. split; [reflexivity|].
    exists [], MsgCsvError. repeat split; reflexivity.
  - cbn [fst snd]. split; [reflexivity|].
    exists [MsgCsvNotFound], MsgRunExportFirst. repeat split; reflexivity.
Qed.

(** X9.  A run of the script ends in one of four ways.  Normally: then
    the directory [../data] exists, the fitted model is on disk and the
    last line printed is the ready line.  By [sys.exit]: then the status
    is 1, the directory exists (it has been created if it was missing),
    the last line printed is one of the five error lines, and unless
    that is the save error no file has been written.  By the [OSError]
    of [os.makedirs]: then the directory was missing and could not be
    created, and nothing has been printed or written.  By the
    [ValueError] of [int] on a sample prediction that is [NaN]: then the
    model has been saved before.  And a run that starts with no
    directory and can create it does so and then exits with status 1 for
    want of the table. *)
Theorem train_script_ends_four_ways (M : Metrics) (d : DataDir)
  (w : World) :
  let run := train_script M d w in
  match result run with
  | Ok _ =>
      dir_after run = DirPresent /\
      (exists model : Model,
          fs (world_after run)
          = write_file MODEL_PATH (Pickle model) (fs w)) /\
      (exists msgs : list Msg,
          stdout (world_after run) = stdout w ++ msgs ++ [MsgReady])
  | Exit c =>
      c = 1 /\ dir_after run = DirPresent /\
      exists (msgs : list Msg) (last : Msg),
        stdout (world_after run) = stdout w ++ msgs ++ [last] /\
        is_exit_line last = true /\
        (last <> MsgSaveError -> fs (world_after run) = fs w)
  | Uncaught e =>
      (e = LibError "OSError" /\ d = DirMissing false /\
       world_after run = w /\ dir_after run = d) \/
      (e = ValueError /\ dir_after run = DirPresent /\
       (exists model : Model,
           fs (world_after run)
           = write_file MODEL_PATH (Pickle model) (fs w)) /\
       In MsgModelSaved (stdout (world_after run)))
  end /\
  (d = DirMissing true -> dir_consistent d w ->
   result run = Exit 1 /\ dir_after run = DirPresent /\
   world_after run = emit w [MsgCsvNotFound; MsgRunExportFirst]).
Proof.
  intro run. split.
  - subst run. unfold train_script.
    pose proof (train_model_endings M w) as H.
    destruct d as [|[|]]; cbn [ensure_data_dir result world_after dir_after].
    + destruct (fst (train_model M w)) as [u|c|e].
      * split; [reflexivity | exact H].
      * destruct H as [Hc H]. split; [exact Hc|]. split; [reflexivity|exact H].
      * right. destruct H as [He H]. split; [exact He|].
        split; [reflexivity | exact H].
    + destruct (fst (train_model M w)) as [u|c|e].
      * split; [reflexivity | exact H].
      * destruct H as [Hc H]. split; [exact Hc|]. split; [reflexivity|exact H].
      * right. destruct H as [He H]. split; [exact He|].
        split; [reflexivity | exact H].
    + left. repeat split; reflexivity.
  - intros -> [Hd | Hcsv]; [discriminate|].
    subst run. unfold train_script.
    cbn [ensure_data_dir result world_after dir_after].
    rewrite train_model_run. unfold train_model_outcome. rewrite Hcsv.
    repeat split; reflexivity.
Qed.

(** The run the last sentence describes, and the one that cannot create
    the directory, on a machine with no [../data]. *)
Example missing_directory_runs :
  train_script Demo.metrics (DirMissing true) Demo.bare
  = mkRun (Exit 1) (emit Demo.bare [MsgCsvNotFound; MsgRunExportFirst])
          DirPresent /\
  train_script Demo.metrics (DirMissing false) Demo.bare
  = mkRun (Uncaught (LibError "OSError")) Demo.bare (DirMissing false) /\
  result (train_script Demo.metrics DirPresent (Demo.world 60 true)) = Ok tt.
Proof. repeat split; vm_compute; reflexivity. Qed.

End TrainingEnds.

(** The third way does happen: with a regressor that answers [NaN] the
    script saves the model and then stops in the sample predictions. *)
Example nan_prediction_stops_script :
  fst (train_model NanDemo.metrics NanDemo.world) = Uncaught ValueError /\
  fs (snd (train_model NanDemo.metrics NanDemo.world)) MODEL_PATH
  = Some (@Pickle NanDemo.libs tt).
Proof. split; vm_compute; reflexivity. Qed.

(* ===================================================================== *)
(** ** The service: loading *)
(* ===================================================================== *)

Section ServiceLoading.
Context `{E : Externals}.

Lemma load_model_result (disk : FileSystem) (s : Server) :
  load_model disk s =
  match disk MODEL_PATH with
  | Some (Pickle m) => (true, say LogModelLoaded (mkServer (Some m) (log s)))
  | Some _ => (false, say LogLoadError (mkServer None (log s)))
  | None => (false, say LogFileNotFound s)
  end.
Proof.
  unfold load_model, path_exists.
  destruct (disk MODEL_PATH) as [[df|m|]|]; reflexivity.
Qed.

Lemma handle_unloaded_model (disk : FileSystem) (r : Request) (s : Server) :
  model s = None ->
  model (snd (handle disk r s)) =
  match r, disk MODEL_PATH with
  | GetRoot, _ => None
  | _, Some (Pickle m) => Some m
  | _, _ => None
  end.
Proof.
  intro Hs. destruct r as [|b|]; simpl handle.
  - unfold status, path_exists. rewrite Hs, load_model_result.
    destruct (disk MODEL_PATH) as [[df|m|]|]; simpl; auto.
  - unfold predict. rewrite Hs, load_model_result.
    destruct (disk MODEL_PATH) as [[df|m|]|]; simpl; auto.
    now destruct (answer_state b (say LogModelLoaded (mkServer (Some m) (log s)))).
  - simpl. exact Hs.
Qed.

Lemma handle_unloaded_calls (disk : FileSystem) (r : Request) (s : Server) :
  model s = None ->
  load_calls (snd (handle disk r s)) =
  (load_calls s + match r with
                  | GetRoot => 0
                  | GetStatus => if path_exists disk then 1 else 0
                  | PostPredict _ => 1
                  end)%nat.
Proof.
  intro Hs. destruct r as [|b|]; simpl handle.
  - unfold status. rewrite Hs, load_model_result. unfold path_exists.
    destruct (disk MODEL_PATH) as [[df|m|]|]; simpl snd;
      rewrite ?load_calls_say; unfold load_calls; simpl; lia.
  - unfold predict. rewrite Hs, load_model_result.
    destruct (disk MODEL_PATH) as [[df|m|]|]; simpl snd;
      try (rewrite load_calls_say; unfold load_calls; simpl; lia).
    destruct (answer_state b (say LogModelLoaded (mkServer (Some m) (log s))))
      as [_ Hcalls].
    rewrite Hcalls, load_calls_say. unfold load_calls. simpl. lia.
  - simpl. lia.
Qed.



(** X11.  How often a request runs [load_model]: never when a model is
    cached; otherwise once for [POST /predict], once for [GET /status] if
    the file exists, never for [GET /].  So a load that failed is tried
    again at the next request, and no request loads twice. *)
Theorem load_calls_per_request (disk : FileSystem) (r : Request)
  (s : Server) :
  load_calls (snd (handle disk r s)) =
  (load_calls s +
   match model s, r with
   | Some _, _ => 0
   | None, GetRoot => 0
   | None, GetStatus => if path_exists disk then 1 else 0
   | None, PostPredict _ => 1
   end)%nat.
Proof.
  destruct (model s) as [m|] eqn:Hs.
  - destruct (handle_loaded disk r s m Hs) as (_ & _ & Hcalls). lia.
  - rewrite (handle_unloaded_calls disk r s Hs). now destruct r.
Qed.



End ServiceLoading.


(* ===================================================================== *)
(** ** The service: requests it cannot answer with a led value *)
(* ===================================================================== *)

Section ServiceErrors.
Context `{E : Externals}.

Lemma answer_of_failure (b : Body) (s : Server) (e : pyexn) :
  compute_led b s = inl e ->
  fst (answer b s) = mkResponse 500 (JsonError (StrOf e)).
Proof. intro H. now rewrite answer_response, H. Qed.

(** X14.  With a model cached and a JSON object as body, the first step
    of the [try] block that raises decides the answer, 500 with that
    exception: converting "ldr", then converting "motion", then the
    model's own [predict], then [int] on its result.  A field that is
    present but null is not defaulted to 0: it is a [TypeError]. *)
Theorem first_failure_is_reported (disk : FileSystem)
  (items : list (string * json)) (s : Server) (m : Model) :
  model s = Some m ->
  let resp := fst (predict disk (BodyJson (JObj items)) s) in
  let v_ldr := dict_get "ldr" items (JNum (of_Z 0)) in
  let v_motion := dict_get "motion" items (JNum (of_Z 0)) in
  (forall e : pyexn,
      py_float v_ldr = inl e -> resp = mkResponse 500 (JsonError (StrOf e)))
  /\
  (v_ldr = JNull -> resp = mkResponse 500 (JsonError (StrOf TypeError))) /\
  (forall (x : pyfloat) (e : pyexn),
      py_float v_ldr = inr x -> py_float v_motion = inl e ->
      resp = mkResponse 500 (JsonError (StrOf e))) /\
  (forall (x y : pyfloat) (e : pyexn),
      py_float v_ldr = inr x -> py_float v_motion = inr y ->
      call_predict m x y = inl e ->
      resp = mkResponse 500 (JsonError (StrOf e))) /\
  (forall (x y pred : pyfloat) (e : pyexn),
      py_float v_ldr = inr x -> py_float v_motion = inr y ->
      call_predict m x y = inr pred -> led_of_pred pred = inl e ->
      resp = mkResponse 500 (JsonError (StrOf e))).
Proof.
  intros Hs resp v_ldr v_motion. subst resp.
  rewrite (predict_loaded disk _ s m Hs).
  assert (Hldr : forall e, py_float v_ldr = inl e ->
                 fst (answer (BodyJson (JObj items)) s)
                 = mkResponse 500 (JsonError (StrOf e))).
  { intros e He. apply answer_of_failure.
    unfold compute_led. cbn [get_json ebind data_get].
    fold v_ldr. now rewrite He. }
  split; [exact Hldr|].
  split; [intro Hnull; apply Hldr; now rewrite Hnull|].
  split; [|split].
  - intros x e Hx He. apply answer_of_failure.
    unfold compute_led. cbn [get_json ebind data_get].
    fold v_ldr v_motion. rewrite Hx. cbn [ebind]. now rewrite He.
  - intros x y e Hx Hy He. apply answer_of_failure.
    unfold compute_led. cbn [get_json ebind data_get].
    fold v_ldr v_motion. rewrite Hx. cbn [ebind]. rewrite Hy. cbn [ebind].
    now rewrite Hs, He.
  - intros x y pred e Hx Hy Hpred He. apply answer_of_failure.
    unfold compute_led. cbn [get_json ebind data_get].
    fold v_ldr v_motion. rewrite Hx. cbn [ebind]. rewrite Hy. cbn [ebind].
    rewrite Hs, Hpred. cbn [ebind]. now rewrite He.
Qed.

(** X15.  With a model cached, a body [request.get_json()] rejects is
    answered 500 with its exception, and a JSON body that is no object (a
    list, a string, a number, null) is answered 500 with the
    [AttributeError] of [data.get]. *)
Theorem bad_body_is_500 (disk : FileSystem) (s : Server) (m : Model) :
  model s = Some m ->
  (forall e : pyexn,
      fst (predict disk (BodyRejected e) s)
      = mkResponse 500 (JsonError (StrOf e))) /\
  (forall j : json,
      (forall items, j <> JObj items) ->
      fst (predict disk (BodyJson j) s)
      = mkResponse 500 (JsonError (StrOf AttributeError))).
Proof.
  intro Hs. split.
  - intro e. rewrite (predict_loaded disk _ s m Hs).
    now apply answer_of_failure.
  - intros j Hj. rewrite (predict_loaded disk _ s m Hs).
    apply answer_of_failure. unfold compute_led. cbn [get_json ebind].
    destruct j; try reflexivity. now contradiction (Hj items).
Qed.

(** X16.  Only the values under "ldr" and "motion" count: two JSON
    objects that agree on these two lookups get the same answer and leave
    the process in the same state, whatever else they hold and in
    whatever order. *)
Theorem only_the_two_readings_count (disk : FileSystem)
  (items1 items2 : list (string * json)) (s : Server) :
  dict_get "ldr" items1 (JNum (of_Z 0)) = dict_get "ldr" items2 (JNum (of_Z 0))
  ->
  dict_get "motion" items1 (JNum (of_Z 0))
  = dict_get "motion" items2 (JNum (of_Z 0)) ->
  predict disk (BodyJson (JObj items1)) s
  = predict disk (BodyJson (JObj items2)) s.
Proof.
  intros Hl Hm.
  assert (Hled : forall s' : Server,
             compute_led (BodyJson (JObj items1)) s'
             = compute_led (BodyJson (JObj items2)) s').
  { intro s'. unfold compute_led. cbn [get_json ebind data_get].
    now rewrite Hl, Hm. }
  unfold predict, answer.
  destruct (model s); [now rewrite Hled|].
  destruct (load_model disk s) as [loaded s'].
  destruct (negb loaded); [reflexivity | now rewrite Hled].
Qed.

End ServiceErrors.

Lemma first_failure_is_reported_witness :
  fst (predict Demo.no_artifact
         (BodyJson (JObj [("ldr"%string, JNull);
                          ("motion"%string, JNum (of_Z 1))]))
         (Demo.holding (of_Z 80)))
  = mkResponse 500 (JsonError (StrOf TypeError)) /\
  fst (predict Demo.no_artifact
         (BodyJson (JObj [("ldr"%string, JNum PosInf)]))
         (Demo.holding (of_Z 80)))
  = mkResponse 500 (JsonError (StrOf (LibError "Input contains NaN or infinity"))).
Proof.
  destruct (first_failure_is_reported (E := Demo.libs) Demo.no_artifact
              [("ldr"%string, JNull); ("motion"%string, JNum (of_Z 1))]
              (Demo.holding (of_Z 80)) (of_Z 80) eq_refl)
    as (_ & Hnull & _).
  destruct (first_failure_is_reported (E := Demo.libs) Demo.no_artifact
              [("ldr"%string, JNum PosInf)]
              (Demo.holding (of_Z 80)) (of_Z 80) eq_refl)
    as (_ & _ & _ & Hmodel & _).
  split.
  - apply Hnull. reflexivity.
  - apply (Hmodel PosInf (of_Z 0)); reflexivity.
Defined.

Lemma bad_body_is_500_witness :
  fst (predict Demo.no_artifact (BodyJson (JArr [JNum (of_Z 1)]))
         (Demo.holding (of_Z 80)))
  = mkResponse 500 (JsonError (StrOf AttributeError)) /\
  fst (predict Demo.no_artifact (BodyRejected BadRequest)
         (Demo.holding (of_Z 80)))
  = mkResponse 500 (JsonError (StrOf BadRequest)).
Proof.
  destruct (bad_body_is_500 (E := Demo.libs) Demo.no_artifact
              (Demo.holding (of_Z 80)) (of_Z 80) eq_refl) as [Hrej Hobj].
  split.
  - apply Hobj. intros items. discriminate.
  - apply Hrej.
Defined.

(** [float] on a whole number beyond the doubles raises [OverflowError],
    which the handler reports as a 500; a whole number in range is
    converted, to the nearest double. *)
Example huge_integer_is_500 :
  py_float (E := Demo.libs) (JInt (10 ^ 400)) = inl OverflowError /\
  py_float (E := Demo.libs) (JInt (2 ^ 53 + 1)) = inr (of_Z (2 ^ 53)) /\
  py_float (E := Demo.libs) (JInt 100) = inr (of_Z 100) /\
  fst (predict Demo.no_artifact
         (BodyJson (JObj [("ldr"%string, JInt (10 ^ 400))]))
         (Demo.holding (of_Z 80)))
  = mkResponse 500 (JsonError (StrOf OverflowError)).
Proof. repeat split; vm_compute; reflexivity. Qed.

Lemma only_the_two_readings_count_witness :
  predict Demo.no_artifact
    (BodyJson (JObj [("motion"%string, JNum (of_Z 1));
                     ("unit"%string, JStr "lux");
                     ("ldr"%string, JNum (of_Z 100))]))
    (Demo.holding (of_Z 80))
  = predict Demo.no_artifact (reading 100 1) (Demo.holding (of_Z 80)).
Proof.
  apply (only_the_two_readings_count (E := Demo.libs)); reflexivity.
Defined.

(* ===================================================================== *)
(** ** From the training script to the service *)
(* ===================================================================== *)

Section TrainThenServe.
Context `{E : Externals}.

Lemma train_model_artifact (M : Metrics) (w : World) (df : Frame) :
  fs w CSV_PATH = Some (Csv df) ->
  missing_cols (without_timestamp df) = [] ->
  (50 <= length (validated df))%nat ->
  writable w = true ->
  fs (snd (train_model M w))
  = write_file MODEL_PATH
      (Pickle (fitted (remove_outliers (validated df)))) (fs w).
Proof.
  intros Hfile Hschema Hn Hw.
  rewrite train_model_run. unfold train_model_outcome.
  rewrite Hfile, Hschema. cbv zeta.
  apply Nat.ltb_ge in Hn. rewrite Hn.
  unfold split_fit_save_outcome. cbn [writable emit]. now rewrite Hw.
Qed.

Lemma serve_from_artifact (disk : FileSystem) (m : Model) (s : Server)
  (b : Body) :
  model s = None -> disk MODEL_PATH = Some (Pickle m) ->
  fst (status disk s) = mkResponse 200 (Text "ready") /\
  model (snd (status disk s)) = Some m /\
  fst (predict disk b s) = respond_loaded m disk (PostPredict b) /\
  model (snd (predict disk b s)) = Some m.
Proof.
  intros Hs Hdisk.
  split; [rewrite status_response; unfold path_exists; now rewrite Hdisk|].
  split.
  { pose proof (handle_unloaded_model disk GetStatus s Hs) as H.
    simpl in H. now rewrite Hdisk in H. }
  split.
  - rewrite (predict_loads disk b s m Hs Hdisk). unfold respond_loaded.
    now rewrite !answer_response, compute_led_model.
  - pose proof (handle_unloaded_model disk (PostPredict b) s Hs) as H.
    simpl in H. now rewrite Hdisk in H.
Qed.

(** X17.  What the training script saves is what the service serves.
    After a run that got as far as saving (table read, schema complete,
    50 valid rows, write accepted), a fresh service process on the disk
    the run leaves answers [GET /status] with 200 "ready" and makes its
    predictions with the model the run fitted, whatever artifact was there
    before.  On a disk without artifact it answers 404 to both. *)
Theorem trained_model_is_served (M : Metrics) (w : World) (df : Frame)
  (b : Body) :
  fs w CSV_PATH = Some (Csv df) ->
  missing_cols (without_timestamp df) = [] ->
  (50 <= length (validated df))%nat ->
  writable w = true ->
  let disk := fs (snd (train_model M w)) in
  let m := fitted (remove_outliers (validated df)) in
  (fst (status disk initial) = mkResponse 200 (Text "ready") /\
   model (snd (status disk initial)) = Some m /\
   fst (predict disk b initial) = respond_loaded m disk (PostPredict b) /\
   model (snd (predict disk b initial)) = Some m) /\
  (fs w MODEL_PATH = None ->
   fst (status (fs w) initial) = mkResponse 404 (Text "not_ready") /\
   fst (predict (fs w) b initial)
   = mkResponse 404 (JsonError ModelNotAvailable)).
Proof.
  intros Hfile Hschema Hn Hw disk m. split.
  - apply serve_from_artifact; [reflexivity|].
    unfold disk. rewrite (train_model_artifact M w df Hfile Hschema Hn Hw).
    unfold write_file. now rewrite String.eqb_refl.
  - intro Hnone. split.
    + rewrite status_response. unfold path_exists. now rewrite Hnone.
    + apply predict_unavailable; [reflexivity|].
      intros m'. rewrite Hnone. discriminate.
Qed.

End TrainThenServe.

Lemma trained_model_is_served_witness :
  fst (predict (fs (snd (train_model Demo.metrics (Demo.world 50 true))))
         (reading 100 0) initial)
  = mkResponse 200 (JsonLed 10) /\
  fst (status (fs (Demo.world 50 true)) initial)
  = mkResponse 404 (Text "not_ready").
Proof.
  destruct (trained_model_is_served (E := Demo.libs) Demo.metrics
              (Demo.world 50 true) (Demo.history 50) (reading 100 0))
    as [(_ & _ & Hpredict & _) Hbefore];
    [reflexivity | vm_compute; reflexivity | vm_compute; lia | reflexivity |].
  split.
  - rewrite Hpredict. vm_compute. reflexivity.
  - now apply Hbefore.
Defined.

(* ===================================================================== *)
(** ** The telemetry exporter *)
(* ===================================================================== *)

Section ExporterFacts.
Context `{E : Externals} `{X : ExporterLibs}.

Lemma fetch_all_length (remote : string -> HttpReply) (keys : list string) :
  length (fst (fetch_all remote keys))
  = length (fetched_keys remote keys).
Proof.
  induction keys as [|key rest IH]; simpl; [reflexivity|].
  destruct (fetch_telemetry remote key) as [e|[df warned]]; simpl;
    now rewrite IH.
Qed.

Lemma fetch_all_nil (remote : string -> HttpReply) (keys : list string) :
  fst (fetch_all remote keys) = [] <-> fetched_keys remote keys = [].
Proof.
  pose proof (fetch_all_length remote keys) as H.
  destruct (fst (fetch_all remote keys)), (fetched_keys remote keys);
    simpl in H; split; intro; congruence.
Qed.

Lemma fetch_http_error (remote : string -> HttpReply) (key : string)
  (status : Z) (body : pyexn + json) :
  remote key = Replied status body -> 400 <= status < 600 ->
  fetch_telemetry remote key = inl (LibError "HTTPError").
Proof.
  intros Hreply [Hlo Hhi]. unfold fetch_telemetry, raise_for_status.
  rewrite Hreply.
  apply Z.leb_le in Hlo. apply Z.ltb_lt in Hhi. now rewrite Hlo, Hhi.
Qed.

Lemma fetch_missing_key (remote : string -> HttpReply) (key : string)
  (status : Z) (items : list (string * json)) :
  remote key = Replied status (inr (JObj items)) ->
  ~ 400 <= status < 600 -> has_key key items = false ->
  fetch_telemetry remote key = inr (empty_frame key, true).
Proof.
  intros Hreply Hstatus Hkey. unfold fetch_telemetry, raise_for_status.
  rewrite Hreply.
  destruct ((400 <=? status) && (status <? 600)) eqn:Hs.
  - apply andb_true_iff in Hs as [Hlo Hhi].
    apply Z.leb_le in Hlo. apply Z.ltb_lt in Hhi. now contradiction Hstatus.
  - cbn [ebind lookup_key]. now rewrite Hkey.
Qed.

(** X18.  A run of the exporter ends in one of three ways.  Normally:
    then at least one key was fetched, the merged table is at the path
    the training script reads, and that script's loader gets it.  By
    [exit(1)]: exactly when no key could be fetched; the disk is
    untouched.  By an uncaught exception (of the merge or of the write):
    then too the disk is untouched. *)
Theorem export_ends_three_ways (remote : string -> HttpReply)
  (dir_ok : bool) (disk : FileSystem) :
  let run := export_thingsboard remote dir_ok disk in
  match export_result run with
  | Ok _ =>
      fetched_keys remote TELEMETRY_KEYS <> [] /\
      exists merged : Frame,
        export_fs run = write_file CSV_PATH (Csv merged) disk /\
        fst (load_data (mkWorld (export_fs run) true [])) = Ok merged
  | Exit c =>
      c = 1 /\ fetched_keys remote TELEMETRY_KEYS = [] /\
      export_fs run = disk
  | Uncaught _ =>
      fetched_keys remote TELEMETRY_KEYS <> [] /\ export_fs run = disk
  end.
Proof.
  intro run. subst run. unfold export_thingsboard.
  pose proof (fetch_all_nil remote TELEMETRY_KEYS) as Hnil.
  destruct (fst (fetch_all remote TELEMETRY_KEYS)) as [|first rest].
  - cbn [export_result export_fs]. repeat split. now apply Hnil.
  - assert (Hne : fetched_keys remote TELEMETRY_KEYS <> []).
    { intro H. apply Hnil in H. discriminate. }
    destruct (merge_all first rest) as [e|merged];
      [cbn [export_result export_fs]; now split|].
    destruct dir_ok; cbn [export_result export_fs]; [|now split].
    split; [exact Hne|]. exists (csv_round_trip merged).
    split; [reflexivity|].
    rewrite load_data_run. cbn [fs]. unfold write_file.
    now rewrite String.eqb_refl.
Qed.

(** X19.  A key whose request fails is skipped and the others are
    fetched as if it had not been asked for: the frames to merge are
    those of the remaining keys.  A reply with a 4xx or 5xx status is
    such a failure whatever its body holds, and its error line is
    printed. *)
Theorem failed_key_is_skipped (remote : string -> HttpReply)
  (keys : list string) (key : string) :
  (forall e : pyexn,
      fetch_telemetry remote key = inl e ->
      fst (fetch_all remote keys)
      = fst (fetch_all remote
               (filter (fun k => negb (String.eqb k key)) keys))) /\
  (forall (status : Z) (body : pyexn + json),
      remote key = Replied status body -> 400 <= status < 600 ->
      ~ In key (fetched_keys remote keys) /\
      (In key keys ->
       In (MsgFetchError key (LibError "HTTPError"))
          (snd (fetch_all remote keys)))).
Proof.
  split.
  - intros e He. induction keys as [|k rest IH]; [reflexivity|].
    cbn [filter]. destruct (String.eqb_spec k key) as [->|Hne];
      cbn [negb fetch_all].
    + rewrite He. exact IH.
    + destruct (fetch_telemetry remote k) as [e'|[df warned]];
        cbn [fst]; now rewrite IH.
  - intros status body Hreply Hstatus.
    pose proof (fetch_http_error remote key status body Hreply Hstatus)
      as Herr.
    split.
    + unfold fetched_keys. rewrite filter_In, Herr. intros [_ H].
      discriminate.
    + induction keys as [|k rest IH]; [intros []|].
      intros [->|Hin]; cbn [fetch_all].
      * rewrite Herr. now left.
      * destruct (fetch_telemetry remote k) as [e'|[df warned]];
          cbn [snd]; [right; now apply IH|].
        apply in_or_app. right. right. now apply IH.
Qed.

(** X20.  A store that answers but holds nothing is no failure: when
    every reply is a JSON object without the key asked for (and no error
    status), all three keys count as fetched, each as an empty two-column
    frame with the no-data warning, and the script does not take the
    [exit(1)] of line 53 but goes on to merge the empty frames. *)
Theorem no_data_is_not_an_error (remote : string -> HttpReply)
  (dir_ok : bool) (disk : FileSystem) :
  (forall key : string,
      In key TELEMETRY_KEYS ->
      exists (status : Z) (items : list (string * json)),
        remote key = Replied status (inr (JObj items)) /\
        ~ 400 <= status < 600 /\ has_key key items = false) ->
  fetch_all remote TELEMETRY_KEYS
  = ([empty_frame "ldr"; empty_frame "motion"; empty_frame "led"],
     [MsgNoData "ldr"; MsgFetched 0 "ldr";
      MsgNoData "motion"; MsgFetched 0 "motion";
      MsgNoData "led"; MsgFetched 0 "led"]) /\
  forall c : Z,
    export_result (export_thingsboard remote dir_ok disk) <> Exit c.
Proof.
  intro Hall.
  assert (Hkey : forall key, In key TELEMETRY_KEYS ->
                 fetch_telemetry remote key = inr (empty_frame key, true)).
  { intros key Hin.
    destruct (Hall key Hin) as (status & items & Hreply & Hstatus & Hmiss).
    exact (fetch_missing_key remote key status items Hreply Hstatus Hmiss). }
  assert (Hfetch : fetch_all remote TELEMETRY_KEYS
          = ([empty_frame "ldr"; empty_frame "motion"; empty_frame "led"],
             [MsgNoData "ldr"; MsgFetched 0 "ldr";
              MsgNoData "motion"; MsgFetched 0 "motion";
              MsgNoData "led"; MsgFetched 0 "led"])).
  { unfold TELEMETRY_KEYS in *. cbn [fetch_all].
    rewrite !Hkey by (simpl; auto). reflexivity. }
  split; [exact Hfetch|].
  intro c. unfold export_thingsboard. rewrite Hfetch. cbn [fst snd].
  destruct (merge_all _ _); [discriminate|].
  destruct dir_ok; discriminate.
Qed.

End ExporterFacts.

Lemma failed_key_is_skipped_witness :
  fst (@fetch_all ExportDemo.libs ExportDemo.flaky TELEMETRY_KEYS)
  = fst (@fetch_all ExportDemo.libs ExportDemo.flaky ["ldr"; "led"]%string)
  /\
  In (MsgFetchError "motion" (LibError "HTTPError"))
     (snd (@fetch_all ExportDemo.libs ExportDemo.flaky TELEMETRY_KEYS)).
Proof.
  destruct (failed_key_is_skipped (X := ExportDemo.libs) ExportDemo.flaky
              TELEMETRY_KEYS "motion") as [Hskip Hstatus].
  split.
  - apply (Hskip (LibError "HTTPError")). reflexivity.
  - destruct (Hstatus 503 (inl ValueError)) as [_ Hline];
      [reflexivity | lia |].
    apply Hline. simpl. auto.
Defined.

Lemma no_data_is_not_an_error_witness :
  export_result
    (export_thingsboard (E := Demo.libs) (X := ExportDemo.libs)
       ExportDemo.hollow true Demo.no_artifact)
  <> Exit 1.
Proof.
  apply (no_data_is_not_an_error (E := Demo.libs) (X := ExportDemo.libs)
           ExportDemo.hollow true Demo.no_artifact).
  intros key Hin. exists 200, []. repeat split. lia.
Defined.

(** With the store down the exporter writes nothing and exits 1; with
    one key failing it exports the two others. *)
Example export_examples :
  export_result
    (export_thingsboard (E := Demo.libs) (X := ExportDemo.libs)
       ExportDemo.down true Demo.no_artifact) = Exit 1 /\
  export_fs
    (export_thingsboard (E := Demo.libs) (X := ExportDemo.libs)
       ExportDemo.flaky true Demo.no_artifact) CSV_PATH
  = Some (Csv [("ts"%string, []); ("ldr"%string, []); ("led"%string, [])]).
Proof. split; reflexivity. Qed.

(* ===================================================================== *)
(** ** The status endpoint and the cache *)
(* ===================================================================== *)

Section StatusAndCache.
Context `{E : Externals}.

(** X21.  [GET /status] looks at the file and not at the cache: it
    answers 200 "ready" exactly when a file exists at the model path.  So
    a process that holds a model whose file has been removed answers
    404 "not_ready" while its [POST /predict] goes on answering with that
    model. *)
Theorem status_looks_at_the_file_only (disk : FileSystem) (s : Server) :
  (fst (status disk s) = mkResponse 200 (Text "ready")
   <-> disk MODEL_PATH <> None) /\
  (fst (status disk s) = mkResponse 404 (Text "not_ready")
   <-> disk MODEL_PATH = None) /\
  (forall (m : Model) (b : Body),
      model s = Some m -> disk MODEL_PATH = None ->
      fst (status disk s) = mkResponse 404 (Text "not_ready") /\
      fst (predict disk b s) = respond_loaded m disk (PostPredict b) /\
      fst (predict disk b s)
      <> mkResponse 404 (JsonError ModelNotAvailable)).
Proof.
  assert (Hstatus : fst (status disk s)
                    = match disk MODEL_PATH with
                      | Some _ => mkResponse 200 (Text "ready")
                      | None => mkResponse 404 (Text "not_ready")
                      end).
  { rewrite status_response. unfold path_exists.
    now destruct (disk MODEL_PATH). }
  split; [|split].
  - rewrite Hstatus. destruct (disk MODEL_PATH); split; intro H;
      congruence.
  - rewrite Hstatus. destruct (disk MODEL_PATH); split; intro H;
      congruence.
  - intros m b Hs Hnone.
    split; [rewrite Hstatus; now rewrite Hnone|].
    destruct (handle_loaded disk (PostPredict b) s m Hs) as (Hresp & _).
    simpl handle in Hresp. split; [exact Hresp|].
    rewrite Hresp. unfold respond_loaded. rewrite answer_response.
    destruct (compute_led b _) as [e|[[x y] n]]; discriminate.
Qed.

End StatusAndCache.
